(** * The transformation stage of the movies ETL pipeline

    A shallow embedding of [etl/transform.py]: the genre normaliser
    ([fix_genre], [clean_genres]) and the table transformation
    ([transform]), with the pandas operations the code calls written out
    as functions on columns of cells.

    Conventions of the model.
    - A Python [str] is a [string] whose characters are code points below
      256; [str.strip] removes the characters that [str.isspace] accepts in
      that range.
    - A pandas number is a binary64 float ([PrimFloat.float]); the missing
      value is NaN.  Integers read from the CSV are the floats of the same
      value, which is exact below 2^53.  pandas keeps a column of integer
      literals as int64 and subtracts two such columns in int64, which
      wraps where binary64 rounds: what is stated of the values of [roi]
      in a table is stated for numbers [below_2_53].
    - An exception is a value of [exn]; code that may raise returns a
      [result].
    - A table is what [pandas.read_csv] gives: a column holds numbers (NaN
      for a missing value) or, as soon as one value is no number, strings
      and NaN.
    - The reader of numeric literals behind [pd.to_numeric] is a parameter
      of [transform]. *)

From Stdlib Require Import ZArith Floats Ascii String List.
From stdpp Require Import base gmap strings list.

#[local] Set Warnings "-clear-no-such-hyp".
#[local] Set Warnings "-inexact-float".

(** ** Python strings *)

Module Str.

(** [str.isspace] on one character below code point 256: the controls
    9..13 and 28..31, the space, NEL (133) and the no-break space (160). *)
Definition isspace (c : ascii) : bool :=
  let n := N_of_ascii c in
  ((9 <=? n) && (n <=? 13) || (28 <=? n) && (n <=? 32)
   || (n =? 133) || (n =? 160))%N.

Fixpoint lstrip (s : string) : string :=
  match s with
  | String c s' => if isspace c then lstrip s' else s
  | EmptyString => EmptyString
  end.

Fixpoint rstrip (s : string) : string :=
  match s with
  | EmptyString => EmptyString
  | String c s' =>
      match rstrip s' with
      | EmptyString => if isspace c then EmptyString else String c EmptyString
      | r => String c r
      end
  end.

(** [s.strip()] *)
Definition strip (s : string) : string := rstrip (lstrip s).

(** [s.split(sep)] for a one-character separator: never empty, the empty
    string gives one empty piece. *)
Fixpoint split (sep : ascii) (s : string) : list string :=
  match s with
  | EmptyString => [EmptyString]
  | String c s' =>
      if Ascii.eqb c sep then EmptyString :: split sep s'
      else match split sep s' with
           | p :: ps => String c p :: ps
           | [] => [String c EmptyString]
           end
  end.

(** [sep.join(l)] *)
Fixpoint join (sep : string) (l : list string) : string :=
  match l with
  | [] => EmptyString
  | [x] => x
  | x :: l' => x +:+ sep +:+ join sep l'
  end.

(** [c in s] for a character *)
Fixpoint contains (c : ascii) (s : string) : bool :=
  match s with
  | EmptyString => false
  | String d s' => Ascii.eqb d c || contains c s'
  end.

End Str.

(** ** The genre normaliser *)

(** Mapping of typos and non-standard genre names to standardized values *)
Definition GENRE_CORRECTIONS : gmap string string :=
  list_to_map
    [ ("Horor", "Horror");
      ("Mistery", "Mystery");
      ("Misterija", "Mystery");
      ("Krimi", "Crime");
      ("Komedija", "Comedy");
      ("Akcija", "Action");
      ("Romantic Drama", "Drama");
      ("Comedy-Drama", "Drama");
      ("Crime Drama", "Crime");
      ("Sports Drama", "Drama");
      ("War Drama", "Drama");
      ("Historical Drama", "Drama");
      ("Thriller", "Thriller");
      ("Avant-Garde", "Documentary") ].

(** [GENRE_CORRECTIONS.get(genre, genre)] after [genre.strip()] *)
Definition fix_genre (genre : string) : string :=
  let genre := Str.strip genre in
  default genre (GENRE_CORRECTIONS !! genre).

(** ** Exceptions and cells *)

Inductive exn : Type :=
| KeyError (key : string)
| AttributeError (what : string)
| TypeError (what : string).

Inductive result (A : Type) : Type :=
| Ok (a : A)
| Raise (e : exn).
Arguments Ok {A} a.
Arguments Raise {A} e.

#[global] Instance result_ret : MRet result := fun _ a => Ok a.
#[global] Instance result_bind : MBind result := fun _ _ k r =>
  match r with
  | Ok a => k a
  | Raise e => Raise e
  end.
#[global] Instance result_fmap : FMap result := fun _ _ f r =>
  match r with
  | Ok a => Ok (f a)
  | Raise e => Raise e
  end.

Definition is_ok {A} (r : result A) : bool :=
  match r with
  | Ok _ => true
  | Raise _ => false
  end.

(** A scalar of a table: a string or a number; the missing value is the
    number NaN, as [pandas.read_csv] produces it. *)
Inductive cell : Type :=
| CStr (s : string)
| CNum (f : float).

Definition NaN : cell := CNum nan.

(** [pd.isna] on a scalar *)
Definition isna (c : cell) : bool :=
  match c with
  | CStr _ => false
  | CNum f => is_nan f
  end.

(** The loop of [clean_genres]: [seen] is the set, [unique_genres] the
    list that is appended to. *)
Fixpoint unique_loop (genres : list string) (seen : gset string)
    (unique_genres : list string) : list string :=
  match genres with
  | [] => unique_genres
  | g :: rest =>
      if decide (g ∈ seen) then unique_loop rest seen unique_genres
      else unique_loop rest ({[g]} ∪ seen) (unique_genres ++ [g])
  end.

(** [clean_genres]: a number that is not NaN has no [split] method. *)
Definition clean_genres (genre_string : cell) : result (list string) :=
  if isna genre_string then Ok []
  else
    match genre_string with
    | CStr s =>
        let genres := fix_genre <$> Str.split "," s in
        Ok (unique_loop genres ∅ [])
    | CNum _ => Raise (AttributeError "split")
    end.

(** ** Numbers: the ROI formula in binary64 *)

Section Numbers.
Open Scope float_scope.

Definition two52 : float := 4503599627370496.

(** [numpy.rint]: to the nearest integer, ties to even.  Below 2^52 in
    magnitude, adding and subtracting 2^52 rounds to an integer in the
    default rounding mode; from 2^52 on every float is an integer. *)
Definition rint (x : float) : float :=
  if abs x <? two52 then
    let r := (abs x + two52) - two52 in
    if get_sign x then - r else r
  else x.

(** [Series.round(2)] on float64, as [numpy.round] does it: scale by
    10^2, [rint], scale back. *)
Definition round2 (x : float) : float := rint (x * 100) / 100.

(** One element of [((box_office - budget) / budget * 100).round(2)] *)
Definition roi (box_office budget : float) : float :=
  round2 ((box_office - budget) / budget * 100).

(** The numbers on which line 85 is the binary64 computation whatever
    the dtype of the two columns.  Two int64 columns are subtracted in
    int64 and the difference is converted to float64 for the division; on
    integers below 2^53 in magnitude that is the float64 difference of the
    operands, both being the exact difference rounded to nearest even.  A
    column with a missing value, an infinity or a fraction is float64. *)
Definition below_2_53 (x : float) : bool :=
  is_nan x || is_infinity x || (abs x <? 9007199254740992).

End Numbers.

(** ** Tables *)

(** A column is a list of cells; a table is its columns in order, by name.
    Tables come from [pandas.read_csv]: names are distinct and the columns
    have one length. *)
Abbreviation Series := (list cell).
Abbreviation DataFrame := (list (string * list cell)).

Inductive dtype : Type := object | float64.

Definition is_str (c : cell) : bool :=
  match c with
  | CStr _ => true
  | CNum _ => false
  end.

(** The dtype [read_csv] infers: numeric when every value of a non-empty
    column is a number or missing, [object] otherwise. *)
Definition dtype_of (s : Series) : dtype :=
  match s with
  | [] => object
  | _ => if existsb is_str s then object else float64
  end.

(** [len(df)] *)
Definition len (df : DataFrame) : nat :=
  match df with
  | [] => 0
  | (_, col) :: _ => length col
  end.

(** [df[key]] *)
Fixpoint getitem (df : DataFrame) (key : string) : result Series :=
  match df with
  | [] => Raise (KeyError key)
  | (k, col) :: df' => if String.eqb k key then Ok col else getitem df' key
  end.

(** [df[key] = value]: in place for a column that exists, a new last
    column otherwise. *)
Fixpoint setitem (df : DataFrame) (key : string) (value : Series) : DataFrame :=
  match df with
  | [] => [(key, value)]
  | (k, col) :: df' =>
      if String.eqb k key then (k, value) :: df'
      else (k, col) :: setitem df' key value
  end.

(** [df.drop(columns=[key])] *)
Definition drop (df : DataFrame) (key : string) : result DataFrame :=
  _ ← getitem df key;
  Ok (filter (λ kc, kc.1 ≠ key) df).

(** [s.replace(to_replace, value)] for a string [to_replace] *)
Definition replace (to_replace : string) (value : cell) (s : Series) : Series :=
  (λ c, match c with
        | CStr x => if String.eqb x to_replace then value else c
        | CNum _ => c
        end) <$> s.

(** [s.str.strip()]: the accessor exists on [object] columns only; a value
    that is not a string becomes NaN. *)
Definition strip_cell (c : cell) : cell :=
  match c with
  | CStr x => CStr (Str.strip x)
  | CNum _ => NaN
  end.

Definition str_strip (s : Series) : result Series :=
  match dtype_of s with
  | object => Ok (strip_cell <$> s)
  | float64 => Raise (AttributeError "str")
  end.

(** The values of a numeric column; arithmetic on a string raises. *)
Fixpoint float_values (s : Series) : result (list float) :=
  match s with
  | [] => Ok []
  | CNum f :: s' => fs ← float_values s'; Ok (f :: fs)
  | CStr _ :: _ => Raise (TypeError "unsupported operand type(s)")
  end.

(** [pd.DataFrame(rows)] for a list of [{'title': _, 'genre': _}]: an
    empty list gives a table without columns. *)
Definition DataFrame_of_rows (rows : list (cell * string)) : DataFrame :=
  match rows with
  | [] => []
  | _ => [("title", rows.*1); ("genre", CStr <$> rows.*2)]
  end.

(** The body of [for idx, row in df.iterrows()], over the pairs
    [(row['title'], row['genre'])]; [rows] is the list appended to. *)
Fixpoint iterrows_loop (rs : list (cell * cell)) (rows : list (cell * string))
    : result (list (cell * string)) :=
  match rs with
  | [] => Ok rows
  | (title, genre) :: rs' =>
      genres ← clean_genres genre;
      iterrows_loop rs' (rows ++ ((λ g, (title, g)) <$> genres))
  end.

(** ** The transformation *)

Section Transform.

(** pandas' reader of numeric literals, a library function: the number a
    string denotes, or [None] for a string that is not a number. *)
Variable parse_number : string → option float.

(** [pd.to_numeric(s, errors='coerce')] *)
Definition to_numeric (s : Series) : Series :=
  (λ c, match c with
        | CStr x => match parse_number x with
                    | Some f => CNum f
                    | None => NaN
                    end
        | CNum _ => c
        end) <$> s.

(** Lines 66-74: the sentinel, then the four numeric columns. *)
Definition coerce_numeric (df : DataFrame) : result DataFrame :=
  box_office ← getitem df "box_office";
  let df := setitem df "box_office" (replace "unknown" NaN box_office) in
  budget ← getitem df "budget";
  let df := setitem df "budget" (to_numeric budget) in
  box_office ← getitem df "box_office";
  let df := setitem df "box_office" (to_numeric box_office) in
  duration ← getitem df "duration";
  let df := setitem df "duration" (to_numeric duration) in
  release_year ← getitem df "release_year";
  let df := setitem df "release_year" (to_numeric release_year) in
  Ok df.

(** Lines 76-80: the four text columns. *)
Definition strip_text (df : DataFrame) : result DataFrame :=
  title ← getitem df "title" ≫= str_strip;
  let df := setitem df "title" title in
  director ← getitem df "director" ≫= str_strip;
  let df := setitem df "director" director in
  language ← getitem df "language" ≫= str_strip;
  let df := setitem df "language" language in
  country ← getitem df "country" ≫= str_strip;
  let df := setitem df "country" country in
  Ok df.

(** Line 85: the [roi] column. *)
Definition add_roi (df : DataFrame) : result DataFrame :=
  box_office ← getitem df "box_office" ≫= float_values;
  budget ← getitem df "budget" ≫= float_values;
  Ok (setitem df "roi" (CNum <$> zip_with roi box_office budget)).

(** Lines 97-104: one row per pair of a movie and one of its genres. *)
Definition genre_rows (df : DataFrame) : result (list (cell * string)) :=
  title ← getitem df "title";
  genre ← getitem df "genre";
  iterrows_loop (zip title genre) [].

(** Lines 109-113: the summary reads three columns. *)
Definition summary (df_movies df_movie_genres : DataFrame) : result unit :=
  _ ← getitem df_movies "box_office";
  _ ← getitem df_movies "budget";
  _ ← getitem df_movie_genres "genre";
  Ok ().

Definition transform (df : DataFrame) : result (DataFrame * DataFrame) :=
  df ← coerce_numeric df;
  df ← strip_text df;
  df ← add_roi df;
  df_movies ← drop df "genre";
  rows ← genre_rows df;
  let df_movie_genres := DataFrame_of_rows rows in
  _ ← summary df_movies df_movie_genres;
  Ok (df_movies, df_movie_genres).

End Transform.

(** A reader of plain decimal integers, for running the model: pandas
    reads these strings to the same numbers (and reads more strings than
    these). *)
Fixpoint digits_value (s : string) (acc : Z) : option Z :=
  match s with
  | EmptyString => Some acc
  | String c s' =>
      match Ascii.is_nat c with
      | Some d => digits_value s' (10 * acc + Z.of_nat d)
      | None => None
      end
  end.

Definition parse_decimal (s : string) : option float :=
  match s with
  | EmptyString => None
  | _ =>
      match digits_value s 0 with
      | Some z => if (z <? 2 ^ 53)%Z then Some (of_uint63 (Uint63.of_Z z)) else None
      | None => None
      end
  end.

(** The tables of the examples. *)
Definition movie (title release_year director language country duration
    budget box_office genre : cell) : DataFrame :=
  [ ("title", [title]);
    ("release_year", [release_year]);
    ("director", [director]);
    ("language", [language]);
    ("country", [country]);
    ("duration", [duration]);
    ("budget", [budget]);
    ("box_office", [box_office]);
    ("genre", [genre]) ].

(** A budget of zero. *)
Definition zero_budget : DataFrame :=
  movie (CStr "Clerks") (CNum 1994) (CStr "Kevin Smith") (CStr "English")
    (CStr "USA") (CNum 92) (CNum 0) (CNum 250) (CStr "Comedy").

(** A movie without genres. *)
Definition no_genre : DataFrame :=
  movie (CStr "Dune") (CNum 2021) (CStr "Denis Villeneuve") (CStr "English")
    (CStr "USA") (CNum 155) (CNum 165000000) (CNum 412500000) NaN.

(** A table that brings a [rating] and a [roi] column of its own. *)
Definition with_roi : DataFrame :=
  movie (CStr "Heat") (CNum 1995) (CStr "Michael Mann") (CStr "English")
    (CStr "USA") (CNum 170) (CNum 100) (CNum 250) (CStr "Krimi, Drama")
  ++ [ ("rating", [CStr "R"]); ("roi", [CStr "high"]) ].

(** The same title twice. *)
Definition two_dunes : DataFrame :=
  [ ("title", [CStr " Dune "; CStr "Dune"]);
    ("release_year", [CNum 1984; CNum 2021]);
    ("director", [CStr "David Lynch"; CStr "Denis Villeneuve"]);
    ("language", [CStr "English"; CStr "English"]);
    ("country", [CStr "USA"; CStr "USA"]);
    ("duration", [CNum 137; CNum 155]);
    ("budget", [CStr "40 million"; CStr "165000000"]);
    ("box_office", [CStr "unknown"; CStr "412500000"]);
    ("genre", [CStr "Action, Akcija"; CStr "Action, Drama"]) ].

Definition with_roi_movies : DataFrame :=
  [ ("title", [CStr "Heat"]);
    ("release_year", [CNum 1995]);
    ("director", [CStr "Michael Mann"]);
    ("language", [CStr "English"]);
    ("country", [CStr "USA"]);
    ("duration", [CNum 170]);
    ("budget", [CNum 100]);
    ("box_office", [CNum 250]);
    ("rating", [CStr "R"]);
    ("roi", [CNum 150]) ].

Definition with_roi_links : DataFrame :=
  [ ("title", [CStr "Heat"; CStr "Heat"]);
    ("genre", [CStr "Crime"; CStr "Drama"]) ].

Definition two_dunes_movies : DataFrame :=
  [ ("title", [CStr "Dune"; CStr "Dune"]);
    ("release_year", [CNum 1984; CNum 2021]);
    ("director", [CStr "David Lynch"; CStr "Denis Villeneuve"]);
    ("language", [CStr "English"; CStr "English"]);
    ("country", [CStr "USA"; CStr "USA"]);
    ("duration", [CNum 137; CNum 155]);
    ("budget", [NaN; CNum 165000000]);
    ("box_office", [NaN; CNum 412500000]);
    ("roi", [NaN; CNum 150]) ].

Definition two_dunes_links : DataFrame :=
  [ ("title", [CStr "Dune"; CStr "Dune"; CStr "Dune"]);
    ("genre", [CStr "Action"; CStr "Action"; CStr "Drama"]) ].

(** Two records of one title, neither with a genre. *)
Definition without_genres : DataFrame :=
  [ ("title", [CStr "Solaris"; CStr "Solaris "]);
    ("release_year", [CNum 1972; CNum 2002]);
    ("director", [CStr "Andrei Tarkovsky"; CStr "Steven Soderbergh"]);
    ("language", [CStr "Russian"; CStr "English"]);
    ("country", [CStr "USSR"; CStr "USA"]);
    ("duration", [CNum 167; CNum 99]);
    ("budget", [CNum 1000000; CNum 47000000]);
    ("box_office", [CStr "unknown"; CStr "30000000"]);
    ("genre", [NaN; NaN]) ].

Definition dune : DataFrame :=
  [ ("title", [CStr " Dune "]);
    ("release_year", [CStr "2021"]);
    ("director", [CStr "Denis Villeneuve"]);
    ("language", [CStr "English"]);
    ("country", [CStr "USA"]);
    ("duration", [CStr "155"]);
    ("budget", [CStr "165000000"]);
    ("box_office", [CStr "unknown"]);
    ("genre", [CStr "Action, Akcija"]) ].

(** The genre normaliser as the specification words it: split on the
    comma, trim each piece, look the trimmed piece up in the correction
    table (keeping it when it has no entry), and keep the first occurrence
    of each label. *)
Fixpoint first_occurrences (l : list string) : list string :=
  match l with
  | [] => []
  | x :: l' => x :: filter (λ y, y ≠ x) (first_occurrences l')
  end.

Definition normalize_genres_spec (raw : option string) : list string :=
  match raw with
  | None => []
  | Some s =>
      first_occurrences
        ((λ piece, let label := Str.strip piece in
                   match GENRE_CORRECTIONS !! label with
                   | Some canonical => canonical
                   | None => label
                   end) <$> Str.split "," s)
  end.

(** What every canonical label of the table satisfies: it is trimmed,
    holds no comma, and is either no key or the key of itself. *)
Definition canonical (v : string) : Prop :=
  Str.strip v = v ∧ Str.contains "," v = false ∧
  default v (GENRE_CORRECTIONS !! v) = v.

(** A trimmed label that the table does not rewrite. *)
Definition settled (g : string) : Prop := Str.strip g = g ∧ fix_genre g = g.

(** A table whose columns have one length. *)
Definition rectangular (df : DataFrame) : Prop :=
  ∀ k col, (k, col) ∈ df → length col = len df.

(** The numbers of a coerced column. *)
Definition numeric_values (parse_number : string → option float) (s : Series)
    : list float :=
  (λ c, match c with
        | CStr x => default nan (parse_number x)
        | CNum f => f
        end) <$> s.

(** The table after the numeric block, from the four columns it read. *)
Definition coerced (parse_number : string → option float) (df : DataFrame)
    (box_office budget duration release_year : Series) : DataFrame :=
  setitem
    (setitem
       (setitem
          (setitem
             (setitem df "box_office" (replace "unknown" NaN box_office))
             "budget" (to_numeric parse_number budget))
          "box_office"
          (to_numeric parse_number (replace "unknown" NaN box_office)))
       "duration" (to_numeric parse_number duration))
    "release_year" (to_numeric parse_number release_year).

(** The table after the text block, from the four stripped columns. *)
Definition stripped (df : DataFrame)
    (title director language country : Series) : DataFrame :=
  setitem
    (setitem (setitem (setitem df "title" title) "director" director)
       "language" language)
    "country" country.

(** The [roi] column, from the two columns as they were read. *)
Definition roi_column (parse_number : string → option float)
    (box_office budget : Series) : Series :=
  CNum <$> zip_with roi
             (numeric_values parse_number (replace "unknown" NaN box_office))
             (numeric_values parse_number budget).

(** [df_movies], from the columns [transform] read and stripped. *)
Definition movies_table (parse_number : string → option float) (df : DataFrame)
    (box_office budget duration release_year : Series)
    (title director language country : Series) : DataFrame :=
  filter (λ kc, kc.1 ≠ "genre")
    (setitem
       (stripped (coerced parse_number df box_office budget duration release_year)
          title director language country)
       "roi" (roi_column parse_number box_office budget)).

(** What [df_movies] holds under each column name, from the argument of
    [transform]: no [genre]; the computed [roi]; the numeric columns
    coerced (the sentinel of [box_office] first); the text columns
    stripped; every other column as it came. *)
Definition movies_column (parse_number : string → option float)
    (df : DataFrame) (k : string) : result Series :=
  if decide (k = "genre") then Raise (KeyError k)
  else if decide (k = "roi") then
    box_office ← getitem df "box_office";
    budget ← getitem df "budget";
    Ok (roi_column parse_number box_office budget)
  else if decide (k = "box_office") then
    (λ col, to_numeric parse_number (replace "unknown" NaN col)) <$> getitem df k
  else if decide (k ∈ ["budget"; "duration"; "release_year"]) then
    to_numeric parse_number <$> getitem df k
  else if decide (k ∈ ["title"; "director"; "language"; "country"]) then
    getitem df k ≫= str_strip
  else getitem df k.

(** The link rows of a list of titles and, record by record, the genre
    labels: the labels of one record stay together and in order. *)
Definition links_of (titles : Series) (genres : list (list string))
    : list (cell * string) :=
  concat (zip_with (λ title gs, (λ g, (title, g)) <$> gs) titles genres).

(** The columns [transform] reads. *)
Definition numeric_columns : list string :=
  ["budget"; "box_office"; "duration"; "release_year"].

Definition text_columns : list string :=
  ["title"; "director"; "language"; "country"].

Definition required_columns : list string :=
  numeric_columns ++ text_columns ++ ["genre"].

Definition is_object (s : Series) : bool :=
  match dtype_of s with
  | object => true
  | float64 => false
  end.

(** A table on which [transform] returns: it is rectangular and has the
    nine columns, the text columns hold strings, and the genre column
    holds strings and missing values with at least one string.  Nothing is
    asked of the values of the numeric columns. *)
Definition ready (df : DataFrame) : bool :=
  forallb (λ kc, Nat.eqb (length kc.2) (len df)) df
  && forallb (λ k, is_ok (getitem df k)) required_columns
  && forallb (λ k, match getitem df k with
                   | Ok col => is_object col
                   | Raise _ => false
                   end) text_columns
  && match getitem df "genre" with
     | Ok col => forallb (λ c, is_str c || isna c) col && existsb is_str col
     | Raise _ => false
     end.

(** A table on which lines 64-106 go through: as [ready], but no record
    need have a genre. *)
Definition loop_ready (df : DataFrame) : bool :=
  forallb (λ kc, Nat.eqb (length kc.2) (len df)) df
  && forallb (λ k, is_ok (getitem df k)) required_columns
  && forallb (λ k, match getitem df k with
                   | Ok col => is_object col
                   | Raise _ => false
                   end) text_columns
  && match getitem df "genre" with
     | Ok col => forallb (λ c, is_str c || isna c) col
     | Raise _ => false
     end.

(** A rectangular table of [n] rows. *)
Definition shape (df : DataFrame) (n : nat) : Prop :=
  rectangular df ∧ len df = n.

(** ** The rest of the pipeline *)

(** [s.count(c)] for a character *)
Fixpoint count_char (c : ascii) (s : string) : nat :=
  match s with
  | EmptyString => 0
  | String d s' => (if Ascii.eqb d c then 1 else 0) + count_char c s'
  end.

(** Lines 66-85 of [transform]: the table from which [df_movies] and the
    link rows are taken. *)
Definition cleaned_table (parse_number : string → option float)
    (df : DataFrame) : result DataFrame :=
  df ← coerce_numeric parse_number df;
  df ← strip_text df;
  add_roi df.

(** A table of three records for the examples below: one without
    genres, and a column the code does not read. *)
Definition catalogue : DataFrame :=
  [ ("title", [CStr "Alien "; CStr " Heat"; CStr "Ran"]);
    ("release_year", [CNum 1979; CNum 1995; CNum 1985]);
    ("director", [CStr "Ridley Scott"; CStr "Michael Mann"; NaN]);
    ("language", [CStr "English"; CStr "English"; CStr " Japanese "]);
    ("country", [CStr "USA"; CStr "USA"; CStr "Japan"]);
    ("duration", [CStr "117"; CStr "170 min"; CStr "162"]);
    ("budget", [CNum 11; CNum 60; CNum 0]);
    ("box_office", [CStr "unknown"; CStr "180"; CStr "4"]);
    ("genre", [CStr "Horor, Sci-Fi"; CStr "Krimi, Crime Drama"; NaN]);
    ("rating", [CStr "R"; CStr "R"; CStr "R"]) ].

(** The names of a table after [df[k] = ...]. *)
Definition add_key (k : string) (names : list string) : list string :=
  if decide (k ∈ names) then names else names ++ [k].

(** ** Loading: [etl/load_postgres.py]

    The database is its tables by name, a table being the columns it
    holds.  Only runs in which the server answers are modelled. *)

(** [os.getenv(key)] *)
Definition getenv (environ : gmap string string) (key : string)
    : option string :=
  environ !! key.

(** A replacement field of an f-string: [None] is written as the text
    None. *)
Definition format_field (value : option string) : string :=
  default "None" value.

(** The URL that [get_engine] hands to [create_engine]. *)
Definition database_url (environ : gmap string string) : string :=
  "postgresql://" +:+ format_field (getenv environ "DB_USER")
  +:+ ":" +:+ format_field (getenv environ "DB_PASSWORD")
  +:+ "@" +:+ format_field (getenv environ "DB_HOST")
  +:+ ":" +:+ format_field (getenv environ "DB_PORT")
  +:+ "/" +:+ format_field (getenv environ "DB_NAME").

Abbreviation Database := (gmap string (list (string * list cell))).

(** The columns of the two [CREATE TABLE] statements. *)
Definition movies_schema : list string :=
  ["id"; "title"; "release_year"; "director"; "language"; "country";
   "duration"; "budget"; "box_office"; "roi"].

Definition movie_genres_schema : list string := ["id"; "title"; "genre"].

(** [CREATE TABLE IF NOT EXISTS name (columns)] *)
Definition create_table_if_not_exists (name : string) (columns : list string)
    (db : Database) : Database :=
  match db !! name with
  | Some _ => db
  | None => <[name := (λ c, (c, [])) <$> columns]> db
  end.

Definition create_tables (db : Database) : Database :=
  create_table_if_not_exists "movie_genres" movie_genres_schema
    (create_table_if_not_exists "movies" movies_schema db).

(** [df.to_sql(name=name, con=engine, if_exists='replace', index=False)]:
    the table is dropped and made again from the frame. *)
Definition to_sql (df : DataFrame) (name : string) (db : Database) : Database :=
  <[name := df]> db.

(** [SELECT COUNT] of all rows of a table; [None] when there is no such
    table. *)
Definition count_rows (db : Database) (name : string) : option nat :=
  len <$> db !! name.

(** [load_to_postgres]: the database it leaves and the two counts it
    prints. *)
Definition load_to_postgres (df_movies df_movie_genres : DataFrame)
    (db : Database) : Database * (option nat * option nat) :=
  let db := create_tables db in
  let db := to_sql df_movies "movies" db in
  let db := to_sql df_movie_genres "movie_genres" db in
  (db, (count_rows db "movies", count_rows db "movie_genres")).

(** The main block of [load_postgres.py] from the table that
    [extract_from_s3] returned: transform, then load. *)
Definition pipeline (parse_number : string → option float)
    (df_raw : DataFrame) (db : Database)
    : result (Database * (option nat * option nat)) :=
  '(df_movies, df_movie_genres) ← transform parse_number df_raw;
  Ok (load_to_postgres df_movies df_movie_genres db).

(** * Properties *)

(** ** Strings *)

Module StrFacts.
Import Str.

Lemma lstrip_idem s : lstrip (lstrip s) = lstrip s.
Proof.
  induction s as [|c s IH]; simpl; [done|].
  destruct (isspace c) eqn:E; [done|]. simpl. by rewrite E.
Qed.

Lemma rstrip_idem s : rstrip (rstrip s) = rstrip s.
Proof.
  induction s as [|c s IH]; simpl; [done|].
  destruct (rstrip s) as [|d r] eqn:E.
  - destruct (isspace c) eqn:Ec; simpl; [done|]. by rewrite Ec.
  - change (rstrip (String c (String d r))) with
      (match rstrip (String d r) with
       | EmptyString => if isspace c then EmptyString else String c EmptyString
       | r' => String c r'
       end).
    by rewrite IH.
Qed.

(** [rstrip] keeps a first character that is not white space. *)
Lemma rstrip_head c s :
  isspace c = false → ∃ r, rstrip (String c s) = String c r.
Proof.
  intros Hc. simpl. destruct (rstrip s); rewrite ?Hc; eauto.
Qed.

Lemma lstrip_head s :
  lstrip s = EmptyString ∨ ∃ c r, lstrip s = String c r ∧ isspace c = false.
Proof.
  induction s as [|c s IH]; simpl; [by left|].
  destruct (isspace c) eqn:E; [done|]. right. eauto.
Qed.

Lemma lstrip_strip s : lstrip (strip s) = strip s.
Proof.
  unfold strip. destruct (lstrip_head s) as [->|(c & r & -> & Hc)]; [done|].
  destruct (rstrip_head c r Hc) as [r' ->]. simpl. by rewrite Hc.
Qed.

Lemma strip_idem s : strip (strip s) = strip s.
Proof.
  unfold strip at 1. rewrite lstrip_strip. unfold strip. apply rstrip_idem.
Qed.

Lemma strip_space s : strip (String " " s) = strip s.
Proof. reflexivity. Qed.

Lemma contains_lstrip c s : contains c (lstrip s) = true → contains c s = true.
Proof.
  induction s as [|d s IH]; simpl; [done|].
  destruct (isspace d); [|done].
  intros H%IH. rewrite H. apply orb_true_r.
Qed.

Lemma contains_rstrip c s : contains c (rstrip s) = true → contains c s = true.
Proof.
  induction s as [|d s IH]; simpl; [done|].
  destruct (rstrip s) as [|e r].
  - destruct (isspace d); simpl; [done|].
    rewrite orb_false_r. intros ->. done.
  - simpl in *. intros [->|H]%orb_true_iff; [done|].
    rewrite IH; [apply orb_true_r|done].
Qed.

Lemma contains_strip c s : contains c (strip s) = false ∨ contains c s = true.
Proof.
  destruct (contains c (strip s)) eqn:E; [right|by left].
  by apply contains_lstrip, contains_rstrip.
Qed.

Lemma split_nonempty sep s : split sep s ≠ [].
Proof.
  destruct s as [|c s]; simpl; [done|].
  destruct (Ascii.eqb c sep); [done|]. by destruct (split sep s).
Qed.

(** No piece of a split holds the separator. *)
Lemma split_pieces sep s p : p ∈ split sep s → contains sep p = false.
Proof.
  revert p. induction s as [|c s IH]; simpl; intros p.
  - by intros ->%list_elem_of_singleton.
  - destruct (Ascii.eqb c sep) eqn:E.
    + intros [->|H]%elem_of_cons; [done|by apply IH].
    + destruct (split sep s) as [|q qs] eqn:Es.
      * intros ->%list_elem_of_singleton. simpl. by rewrite E.
      * intros [->|H]%elem_of_cons.
        -- simpl. rewrite E. apply IH. by left.
        -- apply IH. by right.
Qed.

Lemma split_no_sep sep p : contains sep p = false → split sep p = [p].
Proof.
  induction p as [|c p IH]; simpl; [done|].
  intros [E H]%orb_false_iff. rewrite E, (IH H). done.
Qed.

Lemma split_app sep p rest :
  contains sep p = false →
  split sep (p +:+ String sep rest) = p :: split sep rest.
Proof.
  induction p as [|c p IH]; simpl.
  - by rewrite Ascii.eqb_refl.
  - intros [E H]%orb_false_iff. by rewrite E, (IH H).
Qed.

(** Splitting a [", "]-join of comma-free pieces gives the pieces back,
    each but the first behind one space. *)
Lemma split_join x l :
  (∀ p, p ∈ x :: l → contains "," p = false) →
  split "," (join ", " (x :: l)) = x :: (String " " <$> l).
Proof.
  revert x. induction l as [|y l IH]; intros x H.
  - simpl. apply split_no_sep, H. by left.
  - change (join ", " (x :: y :: l))
      with (x +:+ String "," (String " " (join ", " (y :: l)))).
    rewrite split_app by (apply H; by left).
    f_equal.
    change (split "," (String " " (join ", " (y :: l))))
      with (match split "," (join ", " (y :: l)) with
            | p :: ps => String " " p :: ps
            | [] => [String " " EmptyString]
            end).
    rewrite IH; [done|]. intros p Hp. apply H. by right.
Qed.

End StrFacts.

(** ** The correction table and [fix_genre] *)

Section Genres.
Import Str StrFacts.

Lemma table_values k v : GENRE_CORRECTIONS !! k = Some v → canonical v.
Proof.
  intros H. apply elem_of_list_to_map_2 in H.
  repeat (apply elem_of_cons in H as [H|H];
          [injection H as _ ->; by vm_compute|]).
  by apply elem_of_nil in H.
Qed.

Lemma fix_genre_lookup g :
  fix_genre g = default (strip g) (GENRE_CORRECTIONS !! strip g).
Proof. reflexivity. Qed.

Lemma fix_genre_settled g : settled (fix_genre g).
Proof.
  rewrite fix_genre_lookup.
  destruct (GENRE_CORRECTIONS !! strip g) as [v|] eqn:E; simpl.
  - destruct (table_values _ _ E) as (Hs & _ & Hv).
    split; [done|]. rewrite fix_genre_lookup, Hs. done.
  - split; [apply strip_idem|].
    rewrite fix_genre_lookup, strip_idem, E. done.
Qed.

Lemma fix_genre_idem g : fix_genre (fix_genre g) = fix_genre g.
Proof. apply fix_genre_settled. Qed.

Lemma fix_genre_space g : fix_genre (String " " g) = fix_genre g.
Proof. reflexivity. Qed.

Lemma fix_genre_comma g :
  contains "," g = false → contains "," (fix_genre g) = false.
Proof.
  intros Hg. rewrite fix_genre_lookup.
  destruct (GENRE_CORRECTIONS !! strip g) as [v|] eqn:E; simpl.
  - apply (table_values _ _ E).
  - destruct (contains_strip "," g) as [H|H]; [done|congruence].
Qed.

Lemma fix_genre_blank p : strip p = "" → fix_genre p = "".
Proof. intros H. rewrite fix_genre_lookup, H. reflexivity. Qed.

(** *** The loop against first occurrences *)

Lemma first_occurrences_elem x l : x ∈ first_occurrences l ↔ x ∈ l.
Proof.
  induction l as [|y l IH]; simpl; [done|].
  rewrite !elem_of_cons, list_elem_of_filter, IH.
  destruct (decide (x = y)); tauto.
Qed.

Lemma first_occurrences_NoDup l : NoDup (first_occurrences l).
Proof.
  induction l as [|y l IH]; simpl; constructor.
  - rewrite list_elem_of_filter. naive_solver.
  - by apply NoDup_filter.
Qed.

Lemma first_occurrences_sublist l : sublist (first_occurrences l) l.
Proof.
  induction l as [|y l IH]; simpl; [done|].
  constructor. etrans; [apply sublist_filter|done].
Qed.

Lemma filter_all (P : string → Prop) `{∀ x, Decision (P x)} (l : list string) :
  (∀ x, x ∈ l → P x) → filter P l = l.
Proof.
  induction l as [|y l IH]; intros Hl; [done|].
  rewrite filter_cons_True by (apply Hl; by left).
  f_equal. apply IH. intros x Hx. apply Hl. by right.
Qed.

Lemma first_occurrences_id l : NoDup l → first_occurrences l = l.
Proof.
  induction 1 as [|y l Hy _ IH]; simpl; [done|].
  rewrite IH. f_equal. apply filter_all. intros x Hx ->. done.
Qed.

Lemma unique_loop_spec genres (seen : gset string) unique_genres :
  unique_loop genres seen unique_genres
  = unique_genres ++ filter (λ g, g ∉ seen) (first_occurrences genres).
Proof.
  revert seen unique_genres.
  induction genres as [|g rest IH]; intros seen acc; simpl.
  - by rewrite app_nil_r.
  - destruct (decide (g ∈ seen)) as [Hin|Hout]; rewrite IH.
    + rewrite filter_cons_False by naive_solver.
      rewrite list_filter_filter. f_equal.
      apply list_filter_iff. intros x. naive_solver.
    + rewrite filter_cons_True by done.
      rewrite <- app_assoc. simpl. do 2 f_equal.
      rewrite list_filter_filter.
      apply list_filter_iff. intros x. set_solver.
Qed.

Lemma clean_genres_str s :
  clean_genres (CStr s) = Ok (first_occurrences (fix_genre <$> split "," s)).
Proof.
  unfold clean_genres. simpl. rewrite unique_loop_spec. simpl.
  f_equal. apply filter_all. set_solver.
Qed.

Lemma clean_genres_settled s l g :
  clean_genres (CStr s) = Ok l → g ∈ l → settled g ∧ contains "," g = false.
Proof.
  rewrite clean_genres_str. intros [= <-].
  rewrite first_occurrences_elem, list_elem_of_fmap.
  intros (p & -> & Hp). split; [apply fix_genre_settled|].
  apply fix_genre_comma. by eapply split_pieces.
Qed.

End Genres.

(** ** The genre normaliser: main results *)

(** C2.  [clean_genres] is the normaliser of the specification: a missing
    value gives the empty list, and a string gives its comma-separated
    pieces, each trimmed and looked up in the correction table (kept when
    it has no entry), reduced to first occurrences; that list has no
    duplicate and is a sub-sequence of the corrected pieces.  The
    specification's example evaluates as it says, and the lookup tells
    upper case from lower case. *)
Theorem C2_clean_genres_refines_spec :
  clean_genres NaN = Ok (normalize_genres_spec None)
  ∧ (∀ s, clean_genres (CStr s) = Ok (normalize_genres_spec (Some s)))
  ∧ (∀ s, NoDup (normalize_genres_spec (Some s))
          ∧ sublist (normalize_genres_spec (Some s))
                    (fix_genre <$> Str.split "," s)
          ∧ ∀ g, g ∈ normalize_genres_spec (Some s)
                 ↔ g ∈ fix_genre <$> Str.split "," s)
  ∧ clean_genres (CStr "Action, Horor, Action, Mistery")
    = Ok ["Action"; "Horror"; "Mystery"]
  ∧ clean_genres (CStr " horor ,HOROR,  Sci-Fi") = Ok ["horor"; "HOROR"; "Sci-Fi"].
Proof.
  assert (Hspec : ∀ s, normalize_genres_spec (Some s)
                       = first_occurrences (fix_genre <$> Str.split "," s)).
  { reflexivity. }
  split; [reflexivity|]. split; [|split].
  - intros s. by rewrite Hspec, clean_genres_str.
  - intros s. rewrite Hspec.
    split; [apply first_occurrences_NoDup|].
    split; [apply first_occurrences_sublist|].
    intros g. apply first_occurrences_elem.
  - split; by vm_compute.
Qed.

(** C6.  The empty string normalises to the one blank label; a blank piece
    anywhere (e.g. behind a trailing comma) leaves a blank label in the
    output; and the output is empty for a missing value only. *)
Theorem C6_blank_token_preserved :
  clean_genres (CStr "") = Ok [""]
  ∧ clean_genres (CStr "Action,") = Ok ["Action"; ""]
  ∧ (∀ s p, p ∈ Str.split "," s → Str.strip p = "" →
            ∃ l, clean_genres (CStr s) = Ok l ∧ "" ∈ l)
  ∧ (∀ c, clean_genres c = Ok [] ↔ isna c = true).
Proof.
  split; [by vm_compute|]. split; [by vm_compute|]. split.
  - intros s p Hp Hblank. eexists. split; [apply clean_genres_str|].
    apply first_occurrences_elem, list_elem_of_fmap.
    exists p. by rewrite fix_genre_blank.
  - intros [s|f].
    + rewrite clean_genres_str. simpl. split; [|done].
      intros [= H]. pose proof (StrFacts.split_nonempty "," s) as Hne.
      destruct (Str.split "," s); [done|]. discriminate H.
    + unfold clean_genres. simpl. by destruct (is_nan f).
Qed.

Lemma C6_blank_token_preserved_witness :
  ∃ l, clean_genres (CStr "Drama, ,Crime") = Ok l ∧ "" ∈ l.
Proof.
  apply (proj1 (proj2 (proj2 C6_blank_token_preserved)) "Drama, ,Crime" " ").
  - vm_compute. right. left.
  - reflexivity.
Defined.

(** C7.  A canonical label of the correction table is left as it is by
    [fix_genre], so correcting it twice is correcting it once. *)
Theorem C7_fix_genre_idempotent_on_values k v :
  GENRE_CORRECTIONS !! k = Some v →
  fix_genre (fix_genre v) = fix_genre v ∧ fix_genre v = v.
Proof.
  intros H. split; [apply fix_genre_idem|].
  destruct (table_values _ _ H) as (Hs & _ & Hv).
  by rewrite fix_genre_lookup, Hs.
Qed.

Lemma C7_fix_genre_idempotent_on_values_witness :
  fix_genre (fix_genre "Thriller") = fix_genre "Thriller"
  ∧ fix_genre "Thriller" = "Thriller".
Proof.
  apply (C7_fix_genre_idempotent_on_values "Thriller" "Thriller").
  reflexivity.
Defined.

(** C10.  Normalising the [", "]-join of a normalised list gives the list
    back: its labels are trimmed, left alone by [fix_genre], comma-free
    and distinct. *)
Theorem C10_clean_genres_idempotent s :
  ∃ l, clean_genres (CStr s) = Ok l
       ∧ clean_genres (CStr (Str.join ", " l)) = Ok l
       ∧ NoDup l
       ∧ ∀ g, g ∈ l → Str.strip g = g ∧ fix_genre g = g.
Proof.
  exists (first_occurrences (fix_genre <$> Str.split "," s)).
  pose proof (clean_genres_str s) as Hs. split; [done|].
  pose proof (first_occurrences_NoDup (fix_genre <$> Str.split "," s)) as Hnd.
  pose proof (λ g, clean_genres_settled s _ g Hs) as Hall.
  split; [|split; [done|intros g Hg; by apply Hall]].
  destruct (first_occurrences (fix_genre <$> Str.split "," s)) as [|x l] eqn:E.
  { exfalso. assert (H : fix_genre <$> Str.split "," s = []).
    { destruct (fix_genre <$> Str.split "," s); [done|discriminate E]. }
    apply fmap_nil_inv in H. by apply StrFacts.split_nonempty in H. }
  rewrite clean_genres_str, StrFacts.split_join
    by (intros p Hp; by apply Hall).
  f_equal. trans (first_occurrences (x :: l));
    [|by apply first_occurrences_id].
  f_equal. rewrite fmap_cons. f_equal.
  - apply Hall. by left.
  - rewrite <- list_fmap_compose. rewrite <- (list_fmap_id l) at 2.
    apply list_fmap_ext. intros _ g Hg%list_elem_of_lookup_2. simpl.
    rewrite fix_genre_space. apply Hall. by right.
Qed.

(** ** Tables *)

Section Tables.
Implicit Types (df : DataFrame) (k : string) (col : Series).

Lemma getitem_setitem df k v k' :
  getitem (setitem df k v) k' = if String.eqb k k' then Ok v else getitem df k'.
Proof.
  induction df as [|[k0 c0] df IH]; simpl.
  - destruct (String.eqb_spec k k') as [->|Hne]; [done|].
    reflexivity.
  - destruct (String.eqb_spec k0 k) as [->|Hne]; simpl.
    + by destruct (String.eqb k k').
    + rewrite IH. destruct (String.eqb_spec k0 k') as [->|Hne'];
        [|done].
      destruct (String.eqb_spec k k'); [congruence|done].
Qed.

Lemma getitem_filter df k k' :
  getitem (filter (λ kc, kc.1 ≠ k) df) k'
  = if String.eqb k k' then Raise (KeyError k') else getitem df k'.
Proof.
  induction df as [|[k0 c0] df IH]; simpl.
  - by destruct (String.eqb k k').
  - destruct (decide (k0 ≠ k)) as [Hne|Heq%dec_stable].
    + rewrite filter_cons_True by done. simpl. rewrite IH.
      destruct (String.eqb_spec k0 k') as [->|Hne']; [|done].
      destruct (String.eqb_spec k k'); [congruence|done].
    + rewrite filter_cons_False by (simpl; tauto). rewrite IH. subst k0.
      destruct (String.eqb k k'); done.
Qed.

Lemma getitem_elem df k col : getitem df k = Ok col → (k, col) ∈ df.
Proof.
  induction df as [|[k0 c0] df IH]; simpl; [done|].
  destruct (String.eqb_spec k0 k) as [->|Hne].
  - intros [= ->]. by left.
  - intros H. right. by apply IH.
Qed.

Lemma elem_of_setitem df k v k' c :
  (k', c) ∈ setitem df k v → (k', c) ∈ df ∨ c = v.
Proof.
  induction df as [|[k0 c0] df IH]; simpl.
  - intros [= _ ->]%list_elem_of_singleton. by right.
  - destruct (String.eqb k0 k).
    + intros [[= _ ->]|H]%elem_of_cons; [by right|]. left. by right.
    + intros [->|H]%elem_of_cons; [left; by left|].
      destruct (IH H); [left; by right|by right].
Qed.

Lemma len_setitem df k v : length v = len df → len (setitem df k v) = len df.
Proof.
  destruct df as [|[k0 c0] df]; simpl; [done|].
  by destruct (String.eqb k0 k).
Qed.

Lemma rectangular_getitem df k col :
  rectangular df → getitem df k = Ok col → length col = len df.
Proof. intros Hr H. eapply Hr, getitem_elem, H. Qed.

Lemma rectangular_setitem df k v :
  rectangular df → length v = len df → rectangular (setitem df k v).
Proof.
  intros Hr Hv k' c H. rewrite len_setitem by done.
  destruct (elem_of_setitem _ _ _ _ _ H) as [H'| ->]; [by eapply Hr|done].
Qed.

(** Dropping a column leaves the length, as long as a column is left. *)
Lemma len_filter df k k' col :
  rectangular df → getitem (filter (λ kc, kc.1 ≠ k) df) k' = Ok col →
  len (filter (λ kc, kc.1 ≠ k) df) = len df.
Proof.
  intros Hr H.
  destruct (filter (λ kc, kc.1 ≠ k) df) as [|[k0 c0] m] eqn:E; [done|].
  simpl. apply (Hr k0).
  eapply (list_elem_of_filter (λ kc, kc.1 ≠ k)). rewrite E. by left.
Qed.

Lemma length_replace x v col : length (replace x v col) = length col.
Proof. apply length_fmap. Qed.

Lemma str_strip_ok col col' :
  str_strip col = Ok col' →
  dtype_of col = object ∧ length col' = length col ∧ col' = strip_cell <$> col.
Proof.
  unfold str_strip. destruct (dtype_of col); [|done].
  intros [= <-]. split; [done|]. split; [apply length_fmap|done].
Qed.

Lemma float_values_CNum fs : float_values (CNum <$> fs) = Ok fs.
Proof. induction fs as [|f fs IH]; csimpl; [done|]. by rewrite IH. Qed.

Lemma shape_setitem df k v n :
  shape df n → length v = n → shape (setitem df k v) n.
Proof.
  intros [Hr <-] Hv. split; [by apply rectangular_setitem|].
  by apply len_setitem.
Qed.

Lemma shape_filter df k k' col n :
  shape df n → getitem (filter (λ kc, kc.1 ≠ k) df) k' = Ok col →
  shape (filter (λ kc, kc.1 ≠ k) df) n.
Proof.
  intros [Hr <-] H.
  assert (Hlen : len (filter (λ kc, kc.1 ≠ k) df) = len df)
    by by eapply len_filter.
  split; [|done]. intros k0 c0 [_ Hin]%list_elem_of_filter.
  rewrite Hlen. by eapply Hr.
Qed.

Lemma shape_getitem df k col n :
  shape df n → getitem df k = Ok col → length col = n.
Proof. intros [Hr <-]. by apply rectangular_getitem. Qed.

Lemma ready_rectangular df :
  forallb (λ kc, Nat.eqb (length kc.2) (len df)) df = true → rectangular df.
Proof.
  intros H k col Hin. rewrite forallb_forall in H.
  apply list_elem_of_In, H in Hin. by apply Nat.eqb_eq in Hin.
Qed.

End Tables.

(** ** The blocks of [transform] *)

Section TransformFacts.
Variable parse_number : string → option float.
Implicit Types (df : DataFrame) (k : string) (col : Series).

Ltac getitem_steps :=
  repeat (rewrite ?getitem_filter, getitem_setitem; simpl).

Lemma to_numeric_values col :
  to_numeric parse_number col = CNum <$> numeric_values parse_number col.
Proof.
  unfold to_numeric, numeric_values. rewrite <- list_fmap_compose.
  apply list_fmap_ext. intros _ [s|f] _; simpl; [|done].
  by destruct (parse_number s).
Qed.

Lemma length_to_numeric col :
  length (to_numeric parse_number col) = length col.
Proof. apply length_fmap. Qed.

(** The numeric block in one step: it needs its four columns and
    nothing else. *)
Lemma coerce_numeric_eq df :
  coerce_numeric parse_number df =
    box_office ← getitem df "box_office";
    budget ← getitem df "budget";
    duration ← getitem df "duration";
    release_year ← getitem df "release_year";
    Ok (coerced parse_number df box_office budget duration release_year).
Proof.
  unfold coerce_numeric, coerced.
  destruct (getitem df "box_office") as [bo|] eqn:Ebo; simpl; [|done].
  getitem_steps.
  destruct (getitem df "budget") as [bu|] eqn:Ebu; simpl; [|done].
  getitem_steps.
  destruct (getitem df "duration") as [du|] eqn:Edu; simpl; [|done].
  getitem_steps.
  destruct (getitem df "release_year") as [ry|] eqn:Ery; simpl; done.
Qed.

(** The text block in one step. *)
Lemma strip_text_eq df :
  strip_text df =
    title ← getitem df "title" ≫= str_strip;
    director ← getitem df "director" ≫= str_strip;
    language ← getitem df "language" ≫= str_strip;
    country ← getitem df "country" ≫= str_strip;
    Ok (stripped df title director language country).
Proof.
  unfold strip_text, stripped.
  destruct (getitem df "title" ≫= str_strip) as [t|]; simpl; [|done].
  getitem_steps.
  destruct (getitem df "director" ≫= str_strip) as [d|]; simpl; [|done].
  getitem_steps.
  destruct (getitem df "language" ≫= str_strip) as [l|]; simpl; [|done].
  getitem_steps.
  destruct (getitem df "country" ≫= str_strip) as [c|]; simpl; done.
Qed.

(** [transform] in one step, over the columns of its argument: the
    order of the reads is the order in which the code can raise. *)
Lemma transform_eq df :
  transform parse_number df =
    box_office ← getitem df "box_office";
    budget ← getitem df "budget";
    duration ← getitem df "duration";
    release_year ← getitem df "release_year";
    title ← getitem df "title" ≫= str_strip;
    director ← getitem df "director" ≫= str_strip;
    language ← getitem df "language" ≫= str_strip;
    country ← getitem df "country" ≫= str_strip;
    genre ← getitem df "genre";
    rows ← iterrows_loop (zip title genre) [];
    _ ← getitem (DataFrame_of_rows rows) "genre";
    Ok (movies_table parse_number df box_office budget duration release_year
          title director language country,
        DataFrame_of_rows rows).
Proof.
  unfold transform. rewrite coerce_numeric_eq.
  destruct (getitem df "box_office") as [bo|] eqn:Ebo; simpl; [|done].
  destruct (getitem df "budget") as [bu|] eqn:Ebu; simpl; [|done].
  destruct (getitem df "duration") as [du|] eqn:Edu; simpl; [|done].
  destruct (getitem df "release_year") as [ry|] eqn:Ery; simpl; [|done].
  rewrite strip_text_eq. unfold coerced. getitem_steps.
  destruct (getitem df "title" ≫= str_strip) as [t|] eqn:Et; simpl; [|done].
  destruct (getitem df "director" ≫= str_strip) as [d|] eqn:Ed; simpl; [|done].
  destruct (getitem df "language" ≫= str_strip) as [l|] eqn:El; simpl; [|done].
  destruct (getitem df "country" ≫= str_strip) as [c|] eqn:Ec; simpl; [|done].
  unfold add_roi, stripped. getitem_steps.
  rewrite !to_numeric_values, !float_values_CNum. simpl.
  unfold drop, genre_rows, summary. getitem_steps.
  destruct (getitem df "genre") as [ge|] eqn:Ege; simpl; [|done].
  destruct (iterrows_loop (zip t ge) []) as [rows|] eqn:Erows; simpl; [|done].
  unfold movies_table, stripped, coerced. getitem_steps.
  rewrite !to_numeric_values. simpl.
  destruct (getitem (DataFrame_of_rows rows) "genre"); simpl; [|done].
  reflexivity.
Qed.

(** What a run that returns has read and built. *)
Lemma transform_inv df m g :
  transform parse_number df = Ok (m, g) →
  ∃ bo bu du ry ti di la co t d l c ge rows,
    (getitem df "box_office" = Ok bo ∧ getitem df "budget" = Ok bu
     ∧ getitem df "duration" = Ok du ∧ getitem df "release_year" = Ok ry)
    ∧ (getitem df "title" = Ok ti ∧ getitem df "director" = Ok di
       ∧ getitem df "language" = Ok la ∧ getitem df "country" = Ok co)
    ∧ (str_strip ti = Ok t ∧ str_strip di = Ok d
       ∧ str_strip la = Ok l ∧ str_strip co = Ok c)
    ∧ getitem df "genre" = Ok ge
    ∧ iterrows_loop (zip t ge) [] = Ok rows
    ∧ rows ≠ []
    ∧ m = movies_table parse_number df bo bu du ry t d l c
    ∧ g = DataFrame_of_rows rows.
Proof.
  rewrite transform_eq. intros H.
  destruct (getitem df "box_office") as [bo|]; simpl in H; [|done].
  destruct (getitem df "budget") as [bu|]; simpl in H; [|done].
  destruct (getitem df "duration") as [du|]; simpl in H; [|done].
  destruct (getitem df "release_year") as [ry|]; simpl in H; [|done].
  destruct (getitem df "title") as [ti|]; simpl in H; [|done].
  destruct (str_strip ti) as [t|] eqn:Et; simpl in H; [|done].
  destruct (getitem df "director") as [di|]; simpl in H; [|done].
  destruct (str_strip di) as [d|] eqn:Ed; simpl in H; [|done].
  destruct (getitem df "language") as [la|]; simpl in H; [|done].
  destruct (str_strip la) as [l|] eqn:El; simpl in H; [|done].
  destruct (getitem df "country") as [co|]; simpl in H; [|done].
  destruct (str_strip co) as [c|] eqn:Ec; simpl in H; [|done].
  destruct (getitem df "genre") as [ge|]; simpl in H; [|done].
  destruct (iterrows_loop (zip t ge) []) as [rows|] eqn:Er; simpl in H; [|done].
  destruct rows as [|row rows]; [done|]. simpl in H.
  injection H as <- <-.
  by exists bo, bu, du, ry, ti, di, la, co, t, d, l, c, ge, (row :: rows).
Qed.

(** The columns of [df_movies] are those of [movies_column]. *)
Lemma transform_movies df m g k :
  transform parse_number df = Ok (m, g) →
  getitem m k = movies_column parse_number df k.
Proof.
  intros H. apply transform_inv in H
    as (bo & bu & du & ry & ti & di & la & co & t & d & l & c & ge & rows
        & (Hbo & Hbu & Hdu & Hry) & (Hti & Hdi & Hla & Hco)
        & (Ht & Hd & Hl & Hc) & Hge & _ & _ & -> & _).
  unfold movies_table, stripped, coerced.
  rewrite getitem_filter, !getitem_setitem. unfold movies_column.
  repeat match goal with
         | |- context [String.eqb ?a k] =>
             destruct (String.eqb_spec a k) as [<-|?]
         end;
    repeat (case_decide; try done); simpl;
    rewrite ?Hbo, ?Hbu, ?Hdu, ?Hry, ?Hti, ?Hdi, ?Hla, ?Hco; simpl;
    rewrite ?Ht, ?Hd, ?Hl, ?Hc; try done.
  all: exfalso; set_solver.
Qed.

(** *** The loop over the rows *)

Lemma links_of_cons t ts gs gss :
  links_of (t :: ts) (gs :: gss) = ((λ g, (t, g)) <$> gs) ++ links_of ts gss.
Proof. reflexivity. Qed.

Lemma links_of_lookup titles gss i t gs x :
  titles !! i = Some t → gss !! i = Some gs → x ∈ gs →
  (t, x) ∈ links_of titles gss.
Proof.
  revert gss i. induction titles as [|t0 ts IH]; intros [|gs0 gss] i; try done.
  rewrite links_of_cons, elem_of_app. destruct i as [|i]; simpl.
  - intros [= ->] [= ->] Hx. left. apply list_elem_of_fmap. eauto.
  - intros Ht Hgs Hx. right. by eapply IH.
Qed.

Lemma length_links_of titles gss :
  length titles = length gss →
  length (links_of titles gss) = sum_list (length <$> gss).
Proof.
  revert gss. induction titles as [|t ts IH]; intros [|gs gss]; try done.
  rewrite links_of_cons, length_app, length_fmap. simpl.
  intros [= H]. by rewrite IH.
Qed.

Lemma iterrows_loop_spec rs rows out :
  iterrows_loop rs rows = Ok out →
  ∃ gss, Forall2 (λ r gs, clean_genres r.2 = Ok gs) rs gss
         ∧ out = rows ++ links_of rs.*1 gss.
Proof.
  revert rows. induction rs as [|[t c] rs IH]; intros rows; simpl.
  - intros [= <-]. exists []. by rewrite app_nil_r.
  - destruct (clean_genres c) as [gs|] eqn:E; simpl; [|done].
    intros (gss & Hall & ->)%IH. exists (gs :: gss).
    split; [by constructor|].
    unfold links_of. simpl. by rewrite app_assoc.
Qed.

Lemma iterrows_loop_ok rs rows :
  Forall (λ r, is_str r.2 = true ∨ isna r.2 = true) rs →
  ∃ out, iterrows_loop rs rows = Ok out.
Proof.
  intros Hrs. revert rows.
  induction Hrs as [|[t c] rs Hc _ IH]; intros rows; simpl; [eauto|].
  assert (∃ gs, clean_genres c = Ok gs) as [gs ->]; [|apply IH].
  destruct c as [s|f]; [rewrite clean_genres_str; eauto|].
  destruct Hc as [Hc|Hc]; [done|]. simpl in Hc.
  unfold clean_genres. simpl. rewrite Hc. eauto.
Qed.

(** *** Shape of the movies table *)

Lemma length_numeric_values col :
  length (numeric_values parse_number col) = length col.
Proof. apply length_fmap. Qed.

Lemma transform_shape df m g :
  rectangular df → transform parse_number df = Ok (m, g) →
  shape m (len df).
Proof.
  intros Hr H. pose proof (transform_movies _ _ _ "title" H) as Htitle.
  apply transform_inv in H
    as (bo & bu & du & ry & ti & di & la & co & t & d & l & c & ge & rows
        & (Hbo & Hbu & Hdu & Hry) & (Hti & Hdi & Hla & Hco)
        & (Ht & Hd & Hl & Hc) & Hge & _ & _ & -> & _).
  assert (Hs : shape df (len df)) by done.
  unfold movies_column in Htitle. simpl in Htitle.
  rewrite Hti in Htitle. simpl in Htitle. rewrite Ht in Htitle.
  apply str_strip_ok in Ht as (_ & Ht & _), Hd as (_ & Hd & _),
      Hl as (_ & Hl & _), Hc as (_ & Hc & _).
  eapply shape_filter; [|exact Htitle].
  unfold stripped, coerced, roi_column.
  repeat apply shape_setitem; try done.
  all: rewrite ?length_fmap, ?length_zip_with, ?length_numeric_values,
         ?length_to_numeric, ?length_replace, ?Ht, ?Hd, ?Hl, ?Hc.
  all: repeat match goal with
         | H : getitem _ _ = Ok ?col |- context [length ?col] =>
             rewrite (shape_getitem _ _ _ _ Hs H)
         end; try done; lia.
Qed.

(** *** When [transform] returns *)

Lemma transform_returns df :
  ready df = true → ∃ m g, transform parse_number df = Ok (m, g).
Proof.
  unfold ready. rewrite !andb_true_iff.
  intros [[[Hrect Hreq] Htext] Hgenre].
  apply ready_rectangular in Hrect.
  unfold required_columns, numeric_columns, text_columns in Hreq, Htext.
  simpl in Hreq, Htext.
  repeat rewrite andb_true_iff in Hreq. repeat rewrite andb_true_iff in Htext.
  destruct Hreq as (Hbu & Hbo & Hdu & Hry & Hti & Hdi & Hla & Hco & Hge & _).
  destruct Htext as (Hti' & Hdi' & Hla' & Hco' & _).
  rewrite transform_eq.
  destruct (getitem df "box_office") as [bo|]; [simpl|done].
  destruct (getitem df "budget") as [bu|]; [simpl|done].
  destruct (getitem df "duration") as [du|]; [simpl|done].
  destruct (getitem df "release_year") as [ry|]; [simpl|done].
  destruct (getitem df "title") as [ti|] eqn:Eti; [simpl|done].
  destruct (getitem df "director") as [di|]; [simpl|done].
  destruct (getitem df "language") as [la|]; [simpl|done].
  destruct (getitem df "country") as [co|]; [simpl|done].
  destruct (getitem df "genre") as [ge|] eqn:Ege; [simpl|done].
  unfold str_strip. unfold is_object in Hti', Hdi', Hla', Hco'.
  destruct (dtype_of ti); [simpl|done].
  destruct (dtype_of di); [simpl|done].
  destruct (dtype_of la); [simpl|done].
  destruct (dtype_of co); [simpl|done].
  apply andb_true_iff in Hgenre as [Hall Hex].
  set (t := strip_cell <$> ti).
  assert (Hlen : length t = length ge).
  { unfold t. rewrite length_fmap.
    by rewrite (rectangular_getitem _ _ _ Hrect Eti),
               (rectangular_getitem _ _ _ Hrect Ege). }
  destruct (iterrows_loop_ok (zip t ge) []) as [rows Hrows].
  { apply Forall_forall. intros [a b] Hin%elem_of_zip_r. simpl.
    rewrite forallb_forall in Hall.
    apply list_elem_of_In, Hall, orb_true_iff in Hin. done. }
  rewrite Hrows. simpl.
  apply iterrows_loop_spec in Hrows as (gss & Hgss & ->). simpl.
  assert (Hne : links_of (zip t ge).*1 gss ≠ []).
  { apply existsb_exists in Hex as (c & Hc%list_elem_of_In & Hstr).
    apply list_elem_of_lookup in Hc as [i Hi].
    destruct (lookup_lt_is_Some_2 t i) as [a Ha].
    { rewrite Hlen. by eapply lookup_lt_Some. }
    destruct (Forall2_lookup_l _ _ _ i (a, c) Hgss) as (gs & Hgs & Hclean).
    { rewrite lookup_zip_with, Ha. simpl. by rewrite Hi. }
    simpl in Hclean. destruct c as [s|f]; [|done].
    rewrite clean_genres_str in Hclean. injection Hclean as Hclean.
    destruct gs as [|x gs].
    { destruct (Str.split "," s) eqn:E;
        [by apply StrFacts.split_nonempty in E|done]. }
    intros Hnil.
    assert (Hin : (a, x) ∈ links_of (zip t ge).*1 gss).
    { apply (links_of_lookup _ _ i a (x :: gs)); [|done|by left].
      rewrite list_lookup_fmap, lookup_zip_with, Ha. simpl. by rewrite Hi. }
    rewrite Hnil in Hin. by apply elem_of_nil in Hin. }
  destruct (links_of (zip t ge).*1 gss); [done|]. simpl. eauto.
Qed.

End TransformFacts.

(** ** Numbers: when an operation gives NaN *)

(** The operations of the binary64 specification never invent a NaN: a
    rounded result is a zero, a finite number or an infinity. *)
Section SpecFloatFacts.
Variables prec emax : Z.
Open Scope Z_scope.

Lemma shr_1_nonneg mrs : 0 <= shr_m mrs → 0 <= shr_m (shr_1 mrs).
Proof.
  destruct mrs as [m r s]. simpl.
  destruct m as [|[p|p|]|[p|p|]]; simpl; lia.
Qed.

Lemma iter_shr_1_nonneg n mrs :
  0 <= shr_m mrs → 0 <= shr_m (SpecFloat.iter_pos shr_1 n mrs).
Proof.
  revert mrs. induction n as [n IH|n IH|]; intros mrs H; simpl.
  - apply IH, IH, shr_1_nonneg, H.
  - apply IH, IH, H.
  - apply shr_1_nonneg, H.
Qed.

Lemma shr_fexp_nonneg m e l :
  0 <= m → 0 <= shr_m (shr_fexp prec emax m e l).1.
Proof.
  intros H. unfold shr_fexp, shr.
  assert (H0 : 0 <= shr_m (shr_record_of_loc m l)).
  { destruct l as [|[]]; exact H. }
  destruct (_ - e); simpl; auto using iter_shr_1_nonneg.
Qed.

Lemma round_nearest_even_nonneg m l : 0 <= m → 0 <= round_nearest_even m l.
Proof.
  intros H. destruct l as [|[]]; simpl; try lia.
  destruct (Z.even m); lia.
Qed.

Lemma binary_round_aux_not_nan sx mx ex lx :
  0 <= mx → binary_round_aux prec emax sx mx ex lx ≠ S754_nan.
Proof.
  intros H. unfold binary_round_aux.
  pose proof (shr_fexp_nonneg mx ex lx H) as H1.
  destruct (shr_fexp prec emax mx ex lx) as [mrs' e']. simpl in H1.
  pose proof (shr_fexp_nonneg _ e' loc_Exact
                (round_nearest_even_nonneg _ (loc_of_shr_record mrs') H1))
    as H2.
  destruct (shr_fexp prec emax _ e' loc_Exact) as [mrs'' e'']. simpl in H2.
  destruct (shr_m mrs''); try lia; try discriminate.
  destruct (_ <=? _); discriminate.
Qed.

Lemma binary_normalize_not_nan m e szero :
  binary_normalize prec emax m e szero ≠ S754_nan.
Proof.
  unfold binary_normalize, binary_round. destruct m; try discriminate.
  all: destruct (shl_align _ _ _); apply binary_round_aux_not_nan; lia.
Qed.

Lemma SFdiv_core_binary_nonneg m1 e1 m2 e2 :
  0 <= (SFdiv_core_binary prec emax (Z.pos m1) e1 (Z.pos m2) e2).1.1.
Proof.
  unfold SFdiv_core_binary.
  set (s := _ - _ - _).
  set (m' := match s with Z.pos _ => _ | _ => _ end).
  assert (H : 0 <= m').
  { subst m'. destruct s; try lia. apply Z.shiftl_nonneg. lia. }
  pose proof (Z.div_pos m' (Z.pos m2) H ltac:(lia)) as Hq.
  unfold Z.div in Hq. destruct (Z.div_eucl m' (Z.pos m2)). exact Hq.
Qed.

Lemma SFsub_fin_not_nan x s m e :
  x ≠ S754_nan → SFsub prec emax x (S754_finite s m e) ≠ S754_nan.
Proof.
  destruct x as [sx|sx| |sx mx ex]; simpl; try congruence.
  intros _. apply binary_normalize_not_nan.
Qed.

Lemma SFadd_fin_not_nan x s m e :
  x ≠ S754_nan → SFadd prec emax x (S754_finite s m e) ≠ S754_nan.
Proof.
  destruct x as [sx|sx| |sx mx ex]; simpl; try congruence.
  intros _. apply binary_normalize_not_nan.
Qed.

Lemma SFmul_fin_nan x s m e :
  SFmul prec emax x (S754_finite s m e) = S754_nan ↔ x = S754_nan.
Proof.
  destruct x as [sx|sx| |sx mx ex]; simpl; split; try congruence.
  intros H. exfalso. revert H. apply binary_round_aux_not_nan. lia.
Qed.

Lemma SFdiv_fin_nan x s m e :
  SFdiv prec emax x (S754_finite s m e) = S754_nan ↔ x = S754_nan.
Proof.
  destruct x as [sx|sx| |sx mx ex]; simpl; split; try congruence.
  intros H. exfalso. revert H.
  pose proof (SFdiv_core_binary_nonneg mx ex m e) as Hq.
  destruct (SFdiv_core_binary _ _ _ _ _ _) as [[q e'] l]. simpl in Hq.
  apply binary_round_aux_not_nan, Hq.
Qed.

(** [(x - y) / y] is NaN when an operand is, when [y] is infinite, and
    when both are zero; in no other case. *)
Lemma SFquotient_nan x y :
  SFdiv prec emax (SFsub prec emax x y) y = S754_nan ↔
  x = S754_nan ∨ y = S754_nan
  ∨ (∃ s, y = S754_infinity s)
  ∨ ((∃ s, y = S754_zero s) ∧ ∃ s, x = S754_zero s).
Proof.
  destruct y as [sy|sy| |sy my ey].
  - destruct x as [sx|sx| |sx mx ex]; simpl.
    + destruct sx, sy; simpl; split; eauto 10.
    + split; [discriminate|]. intros [H|[H|[[s H]|[_ [s H]]]]]; discriminate.
    + split; auto.
    + split; [discriminate|]. intros [H|[H|[[s H]|[_ [s H]]]]]; discriminate.
  - split; [eauto 10|]. intros _.
    destruct x as [sx|sx| |sx mx ex]; simpl; try reflexivity.
    destruct sx, sy; reflexivity.
  - split; [auto|]. intros _. destruct x; reflexivity.
  - rewrite SFdiv_fin_nan. split.
    + intros H. left. destruct x as [sx|sx| |sx mx ex]; auto; exfalso.
      all: revert H; apply SFsub_fin_not_nan; discriminate.
    + intros [->|[H|[[s H]|[[s H] _]]]]; try discriminate. reflexivity.
Qed.

End SpecFloatFacts.

Section RoiFacts.
Open Scope float_scope.

Lemma SFcompare_refl x : x ≠ S754_nan → SFcompare x x = Some Eq.
Proof.
  destruct x as [s|s| |s m e]; intros H; try congruence; destruct s; simpl.
  all: try rewrite Z.compare_refl; try rewrite Pos.compare_cont_refl.
  all: reflexivity.
Qed.

Lemma is_nan_spec x : is_nan x = true ↔ Prim2SF x = S754_nan.
Proof.
  unfold is_nan. rewrite FloatAxioms.eqb_spec. unfold SFeqb.
  destruct (Prim2SF x) eqn:E.
  all: try (rewrite SFcompare_refl by discriminate; simpl; split; discriminate).
  simpl. tauto.
Qed.

Lemma is_zero_spec x : is_zero x = true ↔ ∃ s, Prim2SF x = S754_zero s.
Proof.
  unfold is_zero. rewrite FloatAxioms.eqb_spec. unfold SFeqb.
  change (Prim2SF PrimFloat.zero) with (S754_zero false).
  destruct (Prim2SF x) as [s|s| |s m e]; simpl.
  - split; eauto.
  - destruct s; split; try discriminate; intros [? ?]; discriminate.
  - split; try discriminate; intros [? ?]; discriminate.
  - destruct s; split; try discriminate; intros [? ?]; discriminate.
Qed.

Lemma is_infinity_spec x :
  is_infinity x = true ↔ ∃ s, Prim2SF x = S754_infinity s.
Proof.
  unfold is_infinity. rewrite FloatAxioms.eqb_spec, abs_spec. unfold SFeqb.
  change (Prim2SF infinity) with (S754_infinity false).
  destruct (Prim2SF x) as [s|s| |s m e]; simpl.
  - split; try discriminate; intros [? ?]; discriminate.
  - split; eauto.
  - split; try discriminate; intros [? ?]; discriminate.
  - split; try discriminate; intros [? ?]; discriminate.
Qed.

Lemma Prim2SF_100 : ∃ m e, Prim2SF 100 = S754_finite false m e.
Proof. eexists _, _. vm_compute. reflexivity. Qed.

Lemma Prim2SF_two52 : ∃ m e, Prim2SF two52 = S754_finite false m e.
Proof. eexists _, _. vm_compute. reflexivity. Qed.

Lemma rint_nan x : Prim2SF (rint x) = S754_nan ↔ Prim2SF x = S754_nan.
Proof.
  unfold rint. destruct (abs x <? two52) eqn:E; [|tauto].
  rewrite FloatAxioms.ltb_spec, abs_spec in E.
  destruct Prim2SF_two52 as (m & e & H52).
  assert (Hx : Prim2SF x ≠ S754_nan).
  { intros H. rewrite H in E. discriminate E. }
  split; [|tauto]. intros H. exfalso.
  assert (Hr : Prim2SF (abs x + two52 - two52) ≠ S754_nan).
  { rewrite sub_spec, add_spec, abs_spec, H52.
    apply SFsub_fin_not_nan, SFadd_fin_not_nan.
    destruct (Prim2SF x); simpl; congruence. }
  destruct (get_sign x); [|tauto].
  rewrite opp_spec in H.
  destruct (Prim2SF (abs x + two52 - two52)); simpl in H; congruence.
Qed.

Lemma round2_nan x : Prim2SF (round2 x) = S754_nan ↔ Prim2SF x = S754_nan.
Proof.
  unfold round2. destruct Prim2SF_100 as (m & e & H).
  rewrite div_spec, H. unfold SF64div. rewrite SFdiv_fin_nan, rint_nan.
  rewrite mul_spec, H. apply SFmul_fin_nan.
Qed.

Lemma SFsub_diag prec emax s m e :
  SFsub prec emax (S754_finite s m e) (S754_finite s m e) = S754_zero false.
Proof.
  simpl.
  set (x := cond_Zopp s (Z.pos (shl_align m e (IntDef.Z.min e e)).1)).
  replace (x - x)%Z with 0%Z by lia. done.
Qed.

Lemma rint_infinity x s : Prim2SF x = S754_infinity s → rint x = x.
Proof.
  intros H. unfold rint.
  destruct Prim2SF_two52 as (m & e & H52).
  by rewrite FloatAxioms.ltb_spec, abs_spec, H, H52.
Qed.

Lemma round2_infinity x s :
  Prim2SF x = S754_infinity s → Prim2SF (round2 x) = S754_infinity s.
Proof.
  intros H. unfold round2. destruct Prim2SF_100 as (m & e & H100).
  assert (Hx : Prim2SF (x * 100) = S754_infinity s).
  { rewrite mul_spec, H, H100. simpl. by rewrite xorb_false_r. }
  rewrite div_spec, (rint_infinity _ _ Hx), Hx, H100. simpl.
  by rewrite xorb_false_r.
Qed.

Lemma rint_zero x s : Prim2SF x = S754_zero s → ∃ s', Prim2SF (rint x) = S754_zero s'.
Proof.
  intros H. unfold rint.
  destruct Prim2SF_two52 as (m & e & H52).
  rewrite FloatAxioms.ltb_spec, abs_spec, H, H52. simpl.
  assert (Hr : Prim2SF (abs x + two52 - two52) = S754_zero false).
  { rewrite sub_spec, add_spec, abs_spec, H, H52. simpl.
    apply (SFsub_diag prec emax false m e). }
  destruct (get_sign x); [|eauto].
  rewrite opp_spec, Hr. simpl. eauto.
Qed.

Lemma round2_zero x s :
  Prim2SF x = S754_zero s → ∃ s', Prim2SF (round2 x) = S754_zero s'.
Proof.
  intros H. unfold round2. destruct Prim2SF_100 as (m & e & H100).
  assert (Hx : Prim2SF (x * 100) = S754_zero s).
  { rewrite mul_spec, H, H100. simpl. by rewrite xorb_false_r. }
  destruct (rint_zero _ _ Hx) as [s' Hr].
  rewrite div_spec, Hr, H100. simpl. eauto.
Qed.

Lemma finite_spec x :
  is_nan x = false → is_infinity x = false → is_zero x = false →
  ∃ s m e, Prim2SF x = S754_finite s m e.
Proof.
  intros Hn Hi Hz. destruct (Prim2SF x) as [s|s| |s m e] eqn:E; [..|eauto].
  - assert (is_zero x = true) by (apply is_zero_spec; eauto). congruence.
  - assert (is_infinity x = true) by (apply is_infinity_spec; eauto).
    congruence.
  - assert (is_nan x = true) by by apply is_nan_spec. congruence.
Qed.

(** [roi] is NaN exactly when an operand is NaN, the budget is infinite,
    or both operands are zero. *)
Lemma roi_absent box_office budget :
  is_nan (roi box_office budget)
  = is_nan box_office || is_nan budget || is_infinity budget
    || (is_zero budget && is_zero box_office).
Proof.
  apply eq_true_iff_eq.
  rewrite !orb_true_iff, andb_true_iff, !is_nan_spec, is_infinity_spec,
    !is_zero_spec.
  unfold roi. rewrite round2_nan.
  destruct Prim2SF_100 as (m & e & H).
  rewrite mul_spec, H. unfold SF64mul. rewrite SFmul_fin_nan.
  rewrite div_spec, sub_spec. unfold SF64div, SF64sub.
  rewrite SFquotient_nan. tauto.
Qed.

(** A budget of zero under a box office that is a number and not zero:
    the quotient is an infinity, and so is [roi]. *)
Lemma roi_zero_budget box_office budget :
  is_zero budget = true →
  is_nan box_office = false → is_zero box_office = false →
  is_infinity (roi box_office budget) = true.
Proof.
  intros Hb Hn Hz. apply is_infinity_spec.
  apply is_zero_spec in Hb as [sb Hb].
  destruct Prim2SF_100 as (m & e & H100).
  assert (Hq : ∃ s, Prim2SF ((box_office - budget) / budget * 100)
                    = S754_infinity s).
  { rewrite mul_spec, div_spec, sub_spec, Hb, H100.
    destruct (Prim2SF box_office) as [s|s| |s mx ex] eqn:E.
    - assert (is_zero box_office = true) by (apply is_zero_spec; eauto).
      congruence.
    - simpl. eauto.
    - assert (is_nan box_office = true) by by apply is_nan_spec.
      congruence.
    - simpl. eauto. }
  destruct Hq as [s Hq]. exists s. by apply round2_infinity.
Qed.

End RoiFacts.

(** ** Runs of [transform] that return *)

Section Runs.

Lemma cleaned_table_eq parse_number df :
  cleaned_table parse_number df =
    box_office ← getitem df "box_office";
    budget ← getitem df "budget";
    duration ← getitem df "duration";
    release_year ← getitem df "release_year";
    title ← getitem df "title" ≫= str_strip;
    director ← getitem df "director" ≫= str_strip;
    language ← getitem df "language" ≫= str_strip;
    country ← getitem df "country" ≫= str_strip;
    Ok (setitem
          (stripped (coerced parse_number df box_office budget duration
                       release_year)
             title director language country)
          "roi" (roi_column parse_number box_office budget)).
Proof.
  unfold cleaned_table. rewrite coerce_numeric_eq.
  destruct (getitem df "box_office") as [bo|]; simpl; [|done].
  destruct (getitem df "budget") as [bu|]; simpl; [|done].
  destruct (getitem df "duration") as [du|]; simpl; [|done].
  destruct (getitem df "release_year") as [ry|]; simpl; [|done].
  rewrite strip_text_eq. unfold coerced.
  repeat (rewrite getitem_setitem; simpl).
  destruct (getitem df "title" ≫= str_strip) as [t|]; simpl; [|done].
  destruct (getitem df "director" ≫= str_strip) as [d|]; simpl; [|done].
  destruct (getitem df "language" ≫= str_strip) as [l|]; simpl; [|done].
  destruct (getitem df "country" ≫= str_strip) as [c|]; simpl; [|done].
  unfold add_roi, stripped. repeat (rewrite getitem_setitem; simpl).
  by rewrite !to_numeric_values, !float_values_CNum.
Qed.

(** Where [transform] returns, the movies table has the rows of its
    argument. *)
Lemma transform_len parse_number df m g :
  rectangular df → transform parse_number df = Ok (m, g) → len m = len df.
Proof. intros Hr H. by destruct (transform_shape _ _ _ _ Hr H). Qed.

(** What a run that returns says of its link rows: they are [links_of]
    the stripped titles and the normalised genres, record by record. *)
Lemma transform_links parse_number df m g :
  rectangular df → transform parse_number df = Ok (m, g) →
  ∃ titles0 genres gss,
    getitem df "title" = Ok titles0
    ∧ getitem m "title" = Ok (strip_cell <$> titles0)
    ∧ getitem df "genre" = Ok genres
    ∧ Forall2 (λ c gs, clean_genres c = Ok gs) genres gss
    ∧ links_of (strip_cell <$> titles0) gss ≠ []
    ∧ g = DataFrame_of_rows (links_of (strip_cell <$> titles0) gss)
    ∧ length titles0 = len df ∧ length genres = len df.
Proof.
  intros Hr H. pose proof (transform_movies _ _ _ _ "title" H) as Htitle.
  apply transform_inv in H
    as (_ & _ & _ & _ & ti & _ & _ & _ & t & _ & _ & _ & ge & rows
        & _ & (Hti & _) & (Ht & _) & Hge & Hrows & Hne & _ & ->).
  unfold movies_column in Htitle. simpl in Htitle.
  rewrite Hti in Htitle. simpl in Htitle. rewrite Ht in Htitle.
  apply str_strip_ok in Ht as (_ & Hlen & ->).
  pose proof (rectangular_getitem _ _ _ Hr Hti) as Hlti.
  pose proof (rectangular_getitem _ _ _ Hr Hge) as Hlge.
  apply iterrows_loop_spec in Hrows as (gss & Hall & ->). simpl in *.
  rewrite fst_zip in * by (rewrite length_fmap; lia).
  exists ti, ge, gss. repeat split; try done.
  assert (Hall' : Forall2 (λ c gs, clean_genres c = Ok gs)
                    (zip (strip_cell <$> ti) ge).*2 gss)
    by by apply Forall2_fmap_l.
  by rewrite snd_zip in Hall' by (rewrite length_fmap; lia).
Qed.

Lemma links_of_nonempty titles gss :
  links_of titles gss ≠ [] →
  ∃ i gs x, gss !! i = Some gs ∧ x ∈ gs ∧ i < length titles.
Proof.
  revert gss. induction titles as [|t ts IH]; intros [|gs gss]; try done.
  rewrite links_of_cons. destruct gs as [|x gs].
  - simpl. intros (i & gs' & y & Hi & Hy & Hlt)%IH.
    exists (S i), gs', y. simpl. repeat split; [done..|lia].
  - intros _. exists 0, (x :: gs), x. simpl. repeat split; [by left|lia].
Qed.

Lemma clean_genres_ok c gs :
  clean_genres c = Ok gs →
  (is_str c = true ∨ isna c = true) ∧ (gs ≠ [] → is_str c = true).
Proof.
  destruct c as [s|f]; [by split; [left|]|].
  unfold clean_genres. simpl. destruct (is_nan f); [|done].
  intros [= <-]. split; [by right|done].
Qed.

(** [transform] returns on the [ready] tables and on no other rectangular
    table. *)
Lemma transform_ready parse_number df m g :
  rectangular df → transform parse_number df = Ok (m, g) → ready df = true.
Proof.
  intros Hr H.
  destruct (transform_links _ _ _ _ Hr H)
    as (ti0 & ge0 & gss & _ & _ & Hge0 & Hall & Hne & _ & Hlti & Hlge).
  apply transform_inv in H
    as (bo & bu & du & ry & ti & di & la & co & t & d & l & c & ge & rows
        & (Hbo & Hbu & Hdu & Hry) & (Hti & Hdi & Hla & Hco)
        & (Ht & Hd & Hl & Hc) & Hge & _).
  apply str_strip_ok in Ht as (Ht & _), Hd as (Hd & _), Hl as (Hl & _),
      Hc as (Hc & _).
  unfold ready, required_columns, numeric_columns, text_columns, is_object.
  simpl. rewrite Hbo, Hbu, Hdu, Hry, Hti, Hdi, Hla, Hco, Hge, Ht, Hd, Hl, Hc.
  simpl. rewrite Hge0 in Hge. injection Hge as <-.
  repeat rewrite andb_true_iff. repeat split; try done.
  - apply forallb_forall. intros [k col] Hin%list_elem_of_In. simpl.
    apply Nat.eqb_eq. by eapply Hr.
  - apply forallb_forall. intros x Hx%list_elem_of_In.
    apply list_elem_of_lookup in Hx as [i Hi].
    destruct (Forall2_lookup_l _ _ _ i x Hall Hi) as (gs & _ & Hgs).
    apply clean_genres_ok in Hgs as [Hgs _]. by apply orb_true_iff.
  - apply links_of_nonempty in Hne as (i & gs & x & Hi & Hx & _).
    destruct (Forall2_lookup_r _ _ _ i gs Hall Hi) as (cell & Hcell & Hgs).
    apply clean_genres_ok in Hgs as [_ Hgs].
    apply existsb_exists. exists cell. split.
    + apply list_elem_of_In. by eapply list_elem_of_lookup_2.
    + apply Hgs. intros ->. by apply elem_of_nil in Hx.
Qed.

(** Without a genre string in the table, [transform] does not return. *)
Lemma transform_needs_genre parse_number df genres :
  rectangular df → getitem df "genre" = Ok genres →
  Forall (λ c, isna c = true) genres →
  ∀ m g, transform parse_number df ≠ Ok (m, g).
Proof.
  intros Hr Hge Hnan m g H. apply transform_ready in H; [|done].
  unfold ready in H. repeat rewrite andb_true_iff in H.
  destruct H as [_ H]. rewrite Hge in H.
  apply andb_true_iff in H as [_ (c & Hc%list_elem_of_In & Hstr)%existsb_exists].
  rewrite Forall_forall in Hnan. specialize (Hnan c Hc).
  by destruct c.
Qed.

Lemma len_DataFrame_of_rows rows : len (DataFrame_of_rows rows) = length rows.
Proof. destruct rows; [done|]. simpl. by rewrite length_fmap. Qed.


Lemma to_numeric_unparseable parse_number col i s :
  col !! i = Some (CStr s) → parse_number s = None →
  to_numeric parse_number col !! i = Some NaN.
Proof.
  intros Hi Hs. unfold to_numeric. rewrite list_lookup_fmap, Hi. simpl.
  by rewrite Hs.
Qed.

Lemma to_numeric_sentinel parse_number col i :
  col !! i = Some (CStr "unknown") →
  to_numeric parse_number (replace "unknown" NaN col) !! i = Some NaN.
Proof.
  intros Hi. unfold to_numeric, replace. by rewrite !list_lookup_fmap, Hi.
Qed.

Lemma replace_other col i s :
  col !! i = Some (CStr s) → s ≠ "unknown" →
  replace "unknown" NaN col !! i = Some (CStr s).
Proof.
  intros Hi Hs. unfold replace. rewrite list_lookup_fmap, Hi. simpl.
  by destruct (String.eqb_spec s "unknown").
Qed.

Lemma ready_inv df : ready df = true → rectangular df.
Proof.
  unfold ready. repeat rewrite andb_true_iff.
  intros [[[H _] _] _]. by apply ready_rectangular.
Qed.

(** The [roi] column of a run that returns, against its two operands. *)
Lemma transform_roi parse_number df m g :
  rectangular df → transform parse_number df = Ok (m, g) →
  ∃ box_office budget : list float,
    getitem m "box_office" = Ok (CNum <$> box_office)
    ∧ getitem m "budget" = Ok (CNum <$> budget)
    ∧ getitem m "roi" = Ok (CNum <$> zip_with roi box_office budget)
    ∧ length box_office = len df ∧ length budget = len df.
Proof.
  intros Hr H.
  pose proof (transform_movies _ _ _ _ "box_office" H) as Hbo.
  pose proof (transform_movies _ _ _ _ "budget" H) as Hbu.
  pose proof (transform_movies _ _ _ _ "roi" H) as Hroi.
  apply transform_inv in H
    as (bo & bu & _ & _ & _ & _ & _ & _ & _ & _ & _ & _ & _ & _
        & (Ebo & Ebu & _) & _).
  unfold movies_column in Hbo, Hbu, Hroi. simpl in Hbo, Hbu, Hroi.
  rewrite Ebo in Hbo, Hroi. rewrite Ebu in Hbu, Hroi.
  simpl in Hbo, Hbu, Hroi. rewrite to_numeric_values in Hbo, Hbu.
  eexists _, _. split; [exact Hbo|]. split; [exact Hbu|].
  split; [exact Hroi|].
  rewrite !length_numeric_values, length_replace.
  split; by eapply rectangular_getitem.
Qed.

(** The columns of the movies table of a run that returns. *)
Lemma transform_columns parse_number df m g :
  transform parse_number df = Ok (m, g) →
  getitem m "genre" = Raise (KeyError "genre")
  ∧ (∃ col, getitem m "roi" = Ok col)
  ∧ ∀ k, k ∉ required_columns → k ≠ "roi" → getitem m k = getitem df k.
Proof.
  intros H. split; [|split].
  - by rewrite (transform_movies _ _ _ _ "genre" H).
  - rewrite (transform_movies _ _ _ _ "roi" H).
    apply transform_inv in H
      as (bo & bu & _ & _ & _ & _ & _ & _ & _ & _ & _ & _ & _ & _
          & (Ebo & Ebu & _) & _).
    unfold movies_column. simpl. rewrite Ebo, Ebu. simpl. eauto.
  - intros k Hk Hroi. rewrite (transform_movies _ _ _ _ k H).
    unfold movies_column, required_columns, numeric_columns, text_columns in *.
    repeat (case_decide; [exfalso; set_solver|]). done.
Qed.

(** *** Runs with and without genres *)

Lemma ready_loop_ready df genres :
  getitem df "genre" = Ok genres →
  ready df = loop_ready df && existsb is_str genres.
Proof.
  intros H. unfold ready, loop_ready. rewrite H. by rewrite !andb_assoc.
Qed.

(** Only a missing genre gives no label. *)
Lemma clean_genres_nil c gs :
  clean_genres c = Ok gs → (gs = [] ↔ is_str c = false).
Proof.
  destruct c as [s|f].
  - rewrite clean_genres_str. intros [= <-]. split; [|done].
    destruct (Str.split "," s) eqn:E; [by apply StrFacts.split_nonempty in E|].
    done.
  - unfold clean_genres. simpl. destruct (is_nan f); [|done].
    by intros [= <-].
Qed.

Lemma links_of_nil titles genres gss :
  length titles = length genres →
  Forall2 (λ c gs, clean_genres c = Ok gs) genres gss →
  links_of titles gss = [] ↔ existsb is_str genres = false.
Proof.
  intros Hlen Hall. revert titles Hlen.
  induction Hall as [|c gs genres gss Hc _ IH]; intros [|t ts] Hlen;
    try done.
  rewrite links_of_cons. simpl. injection Hlen as Hlen.
  rewrite orb_false_iff, <- (IH ts Hlen), <- (clean_genres_nil _ _ Hc).
  split.
  - intros [H1 H2]%app_eq_nil. split; [|done]. by destruct gs.
  - by intros [-> ->].
Qed.

Lemma links_of_fmap (f : cell → cell) titles (gss : list (list string)) :
  links_of (f <$> titles) gss
  = concat (zip_with (λ t gs, (λ g, (f t, g)) <$> gs) titles gss).
Proof.
  unfold links_of. f_equal. revert gss.
  induction titles as [|t ts IH]; intros [|gs gss]; csimpl; try done.
  by rewrite IH.
Qed.

(** The genres of each record, where every genre is read. *)
Lemma clean_genres_all genres :
  forallb (λ c, is_str c || isna c) genres = true →
  Forall (λ c, is_ok (clean_genres c) = true) genres
  ∧ Forall2 (λ c gs, clean_genres c = Ok gs) genres
      ((λ c, match clean_genres c with
             | Ok gs => gs
             | Raise _ => []
             end) <$> genres).
Proof.
  induction genres as [|c genres IH]; simpl; [by split; constructor|].
  intros [Hc Hrest]%andb_true_iff. destruct (IH Hrest) as [IH1 IH2].
  assert (∃ gs, clean_genres c = Ok gs) as [gs Hgs].
  { destruct c as [s|f]; [rewrite clean_genres_str; eauto|].
    unfold clean_genres. simpl in *. rewrite Hc. eauto. }
  split; constructor; try done; by rewrite Hgs.
Qed.

(** A run over a table on which the loop goes through: the cleaned
    table, the rows of the loop, and what [transform] ends in. *)
Lemma transform_run parse_number df titles genres gss :
  loop_ready df = true →
  getitem df "title" = Ok titles → getitem df "genre" = Ok genres →
  Forall2 (λ c gs, clean_genres c = Ok gs) genres gss →
  ∃ c,
    cleaned_table parse_number df = Ok c
    ∧ getitem c "title" = Ok (strip_cell <$> titles)
    ∧ genre_rows c = Ok (links_of (strip_cell <$> titles) gss)
    ∧ length titles = len df ∧ length genres = len df
    ∧ transform parse_number df =
        match links_of (strip_cell <$> titles) gss with
        | [] => Raise (KeyError "genre")
        | _ :: _ =>
            Ok (filter (λ kc, kc.1 ≠ "genre") c,
                DataFrame_of_rows (links_of (strip_cell <$> titles) gss))
        end.
Proof.
  unfold loop_ready. rewrite !andb_true_iff.
  intros [[[Hrect Hreq] Htext] Hgenre] Eti Ege Hgss.
  apply ready_rectangular in Hrect.
  unfold required_columns, numeric_columns, text_columns in Hreq, Htext.
  simpl in Hreq, Htext.
  repeat rewrite andb_true_iff in Hreq. repeat rewrite andb_true_iff in Htext.
  destruct Hreq as (Hbu & Hbo & Hdu & Hry & Hti & Hdi & Hla & Hco & Hge & _).
  destruct Htext as (Hti' & Hdi' & Hla' & Hco' & _).
  rewrite Ege in Hgenre. rewrite Eti in Hti'.
  rewrite transform_eq, cleaned_table_eq. unfold genre_rows.
  rewrite Eti, Ege.
  destruct (getitem df "box_office") as [bo|]; [simpl|done].
  destruct (getitem df "budget") as [bu|]; [simpl|done].
  destruct (getitem df "duration") as [du|]; [simpl|done].
  destruct (getitem df "release_year") as [ry|]; [simpl|done].
  destruct (getitem df "director") as [di|]; [simpl|done].
  destruct (getitem df "language") as [la|]; [simpl|done].
  destruct (getitem df "country") as [co|]; [simpl|done].
  unfold str_strip. unfold is_object in Hti', Hdi', Hla', Hco'.
  destruct (dtype_of titles); [simpl|done].
  destruct (dtype_of di); [simpl|done].
  destruct (dtype_of la); [simpl|done].
  destruct (dtype_of co); [simpl|done].
  set (t := strip_cell <$> titles).
  pose proof (rectangular_getitem _ _ _ Hrect Eti) as Hlti.
  pose proof (rectangular_getitem _ _ _ Hrect Ege) as Hlge.
  assert (Hlen : length t = length genres).
  { unfold t. by rewrite length_fmap, Hlti, Hlge. }
  assert (Hrows : iterrows_loop (zip t genres) [] = Ok (links_of t gss)).
  { destruct (iterrows_loop_ok (zip t genres) []) as [rows Hrows].
    { apply Forall_forall. intros [a b] Hin%elem_of_zip_r. simpl.
      rewrite forallb_forall in Hgenre.
      apply list_elem_of_In, Hgenre, orb_true_iff in Hin. done. }
    rewrite Hrows. f_equal.
    apply iterrows_loop_spec in Hrows as (gss' & Hgss' & ->). simpl.
    rewrite fst_zip by lia. f_equal.
    assert (Hall : Forall2 (λ c gs, clean_genres c = Ok gs)
                     (zip t genres).*2 gss')
      by by apply Forall2_fmap_l.
    rewrite snd_zip in Hall by lia.
    clear -Hgss Hall. revert gss' Hall.
    induction Hgss as [|c gs genres gss Hc _ IH]; intros gss' Hall;
      inversion Hall as [|? gs' ? gss'' Hc' Hrest]; subst; [done|].
    rewrite Hc in Hc'. injection Hc' as <-. f_equal. by apply IH. }
  eexists. split; [reflexivity|].
  unfold stripped, coerced. repeat (rewrite getitem_setitem; simpl).
  rewrite Ege. simpl. rewrite Hrows. simpl.
  split; [done|]. split; [done|]. split; [done|]. split; [done|].
  destruct (links_of t gss); done.
Qed.

(** *** A [roi] column in the argument *)

Lemma forallb_setitem (P : string * Series → bool) df k v :
  (∀ k0, P (k0, v) = true) → forallb P df = true →
  forallb P (setitem df k v) = true.
Proof.
  intros Hv. induction df as [|[k0 c0] df IH]; simpl.
  - intros _. by rewrite Hv.
  - intros [H0 H]%andb_true_iff. destruct (String.eqb k0 k); simpl.
    + by rewrite Hv, H.
    + by rewrite H0, IH.
Qed.

Lemma ready_setitem_roi df col :
  ready df = true → length col = len df →
  ready (setitem df "roi" col) = true.
Proof.
  unfold ready, required_columns, numeric_columns, text_columns.
  intros H Hlen. simpl in *. rewrite !getitem_setitem. simpl.
  rewrite len_setitem by done.
  apply andb_true_iff in H as [H Hge]. apply andb_true_iff in H as [H Htext].
  apply andb_true_iff in H as [Hrect Hreq].
  rewrite Hreq, Htext, Hge, !andb_true_r.
  apply forallb_setitem; [|done]. intros k0. simpl. by apply Nat.eqb_eq.
Qed.

End Runs.

(** ** The transformation: main results *)

Section TransformClaims.
Open Scope float_scope.

(** The end-to-end scenario of the specification. *)
Example transform_dune :
  transform parse_decimal dune
  = Ok ([ ("title", [CStr "Dune"]);
          ("release_year", [CNum 2021]);
          ("director", [CStr "Denis Villeneuve"]);
          ("language", [CStr "English"]);
          ("country", [CStr "USA"]);
          ("duration", [CNum 155]);
          ("budget", [CNum 165000000]);
          ("box_office", [NaN]);
          ("roi", [NaN]) ],
        [ ("title", [CStr "Dune"]); ("genre", [CStr "Action"]) ]).
Proof. by vm_compute. Qed.

(** A table with a [roi] column of its own. *)
Example transform_with_roi :
  transform parse_decimal with_roi = Ok (with_roi_movies, with_roi_links).
Proof. by vm_compute. Qed.

(** Two records whose titles strip to one title. *)
Example transform_two_dunes :
  transform parse_decimal two_dunes
  = Ok (two_dunes_movies, two_dunes_links).
Proof. by vm_compute. Qed.

(** C1 (as amended).  On a [ready] table [transform] returns, and the
    movies table has a [roi] for every record, next to the coerced
    [box_office] and [budget]; for numbers [below_2_53] it is, row by row,
    [roi] of the two, that is [(box_office - budget) / budget * 100] in
    binary64, rounded to two decimals by scaling by 100, rounding to the
    nearest integer with ties to even, and scaling back.  It is missing
    exactly when [box_office] is missing, [budget] is missing, [budget] is
    infinite, or both are zero; a zero budget under any box office that is
    a number and not zero gives an infinity, which is a value.  No case
    raises.  The examples fix the formula and the rounding: 150 for 250
    over 100, 66.67 and -66.67 for thirds, 0.12 and 0.38 for the ties 0.125
    and 0.375. *)
Theorem C1_roi_of_cleaned_record :
  (∀ parse_number df,
      ready df = true →
      ∃ m g (box_office budget rois : list float),
        transform parse_number df = Ok (m, g)
        ∧ getitem m "box_office" = Ok (CNum <$> box_office)
        ∧ getitem m "budget" = Ok (CNum <$> budget)
        ∧ getitem m "roi" = Ok (CNum <$> rois)
        ∧ length box_office = len df ∧ length budget = len df
        ∧ length rois = len df
        ∧ (forallb below_2_53 box_office = true →
           forallb below_2_53 budget = true →
           rois = zip_with roi box_office budget))
  ∧ (∀ box_office budget,
        is_nan (roi box_office budget)
        = is_nan box_office || is_nan budget || is_infinity budget
          || (is_zero budget && is_zero box_office))
  ∧ (∀ box_office budget,
        is_zero budget = true →
        is_nan box_office = false → is_zero box_office = false →
        is_infinity (roi box_office budget) = true)
  ∧ roi 250 100 = 150
  ∧ roi 5 3 = 66.67 ∧ roi 1 3 = -66.67
  ∧ roi 801 800 = 0.12 ∧ roi 803 800 = 0.38
  ∧ roi 250 0 = infinity ∧ roi (-250) 0 = neg_infinity
  ∧ roi 0 0 = nan.
Proof.
  split; [|split; [|split; [|by vm_compute]]].
  - intros parse_number df Hready.
    destruct (transform_returns parse_number df Hready) as (m & g & H).
    destruct (transform_roi _ _ _ _ (ready_inv _ Hready) H)
      as (bo & bu & Hbo & Hbu & Hroi & Hlbo & Hlbu).
    exists m, g, bo, bu, (zip_with roi bo bu).
    rewrite length_zip_with. repeat split; try done. lia.
  - apply roi_absent.
  - apply roi_zero_budget.
Qed.

(** The second record of [two_dunes] has numbers [below_2_53], the first
    none: the two [roi] are [roi] of the coerced values, NaN and 150. *)
Lemma C1_roi_of_cleaned_record_witness :
  ∃ m g,
    transform parse_decimal two_dunes = Ok (m, g)
    ∧ getitem m "box_office" = Ok [NaN; CNum 412500000]
    ∧ getitem m "budget" = Ok [NaN; CNum 165000000]
    ∧ getitem m "roi"
      = Ok (CNum <$> zip_with roi [nan; 412500000] [nan; 165000000])
    ∧ getitem m "roi" = Ok [NaN; CNum 150].
Proof.
  destruct (proj1 C1_roi_of_cleaned_record parse_decimal two_dunes eq_refl)
    as (m & g & bo & bu & rois & H & Hbo & Hbu & Hroi & _ & _ & _ & Hval).
  exists m, g. split; [exact H|].
  rewrite transform_two_dunes in H. injection H as <- <-.
  destruct bo as [|b1 [|b2 [|b3 bo]]]; try discriminate Hbo.
  destruct bu as [|u1 [|u2 [|u3 bu]]]; try discriminate Hbu.
  injection Hbo as <- <-. injection Hbu as <- <-.
  rewrite Hroi, (Hval eq_refl eq_refl). repeat split.
Defined.

(** C1, the claim as written fails: a budget of zero next to a box
    office of 250 leaves a [roi] that is present, the infinity. *)
Lemma C1_counterexample :
  ∃ m g, transform parse_decimal zero_budget = Ok (m, g)
         ∧ getitem m "budget" = Ok [CNum 0]
         ∧ getitem m "box_office" = Ok [CNum 250]
         ∧ getitem m "roi" = Ok [CNum infinity]
         ∧ isna (CNum infinity) = false.
Proof. eexists _, _. by vm_compute. Qed.

(** C3.  The numeric block returns on every table that has its four
    columns, whatever they hold.  On a table that is [ready], which asks
    nothing of the numeric values, [transform] returns a movies table
    with the rows of its argument, and in each of the four numeric
    columns a string that is no number, and the string "unknown" in
    [box_office], has become NaN in its row. *)
Theorem C3_unparseable_numbers_become_NaN parse_number df :
  (forallb (λ k, is_ok (getitem df k)) numeric_columns = true →
   is_ok (coerce_numeric parse_number df) = true)
  ∧ (ready df = true →
     ∃ m g, transform parse_number df = Ok (m, g)
       ∧ len m = len df
       ∧ ∀ k col, k ∈ numeric_columns → getitem df k = Ok col →
           ∃ col', getitem m k = Ok col'
             ∧ length col' = length col
             ∧ ∀ i s, col !! i = Some (CStr s) →
                 parse_number s = None ∨ (k = "box_office" ∧ s = "unknown") →
                 col' !! i = Some NaN).
Proof.
  split.
  - unfold numeric_columns. simpl. rewrite coerce_numeric_eq.
    destruct (getitem df "budget"); [|done].
    destruct (getitem df "box_office"); [|done].
    destruct (getitem df "duration"); [|done].
    by destruct (getitem df "release_year").
  - intros Hready.
    destruct (transform_returns parse_number df Hready) as (m & g & H).
    exists m, g. split; [done|].
    split; [by eapply transform_len, H; apply ready_inv|].
    intros k col Hk Hcol. rewrite (transform_movies _ _ _ _ k H).
    unfold numeric_columns in Hk. unfold movies_column.
    rewrite !elem_of_cons, elem_of_nil in Hk.
    destruct Hk as [->|[->|[->|[->|[]]]]]; simpl; rewrite Hcol; simpl.
    all: eexists; split; [reflexivity|].
    all: rewrite ?length_to_numeric, ?length_replace; split; [done|].
    all: intros i s Hi [Hs|[Hk ->]]; try discriminate Hk.
    all: try by eapply to_numeric_unparseable.
    + destruct (decide (s = "unknown")) as [->|Hne];
        [by apply to_numeric_sentinel|].
      eapply to_numeric_unparseable; [|done]. by apply replace_other.
    + by apply to_numeric_sentinel.
Qed.

Lemma C3_unparseable_numbers_become_NaN_witness :
  is_ok (coerce_numeric parse_decimal two_dunes) = true
  ∧ ∃ m g, transform parse_decimal two_dunes = Ok (m, g)
      ∧ len m = len two_dunes
      ∧ ∀ k col, k ∈ numeric_columns → getitem two_dunes k = Ok col →
          ∃ col', getitem m k = Ok col'
            ∧ length col' = length col
            ∧ ∀ i s, col !! i = Some (CStr s) →
                parse_decimal s = None ∨ (k = "box_office" ∧ s = "unknown") →
                col' !! i = Some NaN.
Proof.
  split.
  - apply (proj1 (C3_unparseable_numbers_become_NaN parse_decimal two_dunes)).
    by vm_compute.
  - apply (proj2 (C3_unparseable_numbers_become_NaN parse_decimal two_dunes)).
    by vm_compute.
Defined.

(** C4, the failing input.  On a table whose records have no genre the
    loop builds no row, [pd.DataFrame([])] has no [genre] column, and the
    summary line that counts the unique genres raises [KeyError]: no
    movies table is returned for that one record, whatever the reader of
    numbers.  The same record with a genre goes through. *)
Theorem C4_raises_without_genre_rows parse_number :
  len no_genre = 1%nat
  ∧ genre_rows no_genre = Ok []
  ∧ transform parse_number no_genre = Raise (KeyError "genre")
  ∧ is_ok (transform parse_number
             (setitem no_genre "genre" [CStr "Sci-Fi"])) = true.
Proof. by vm_compute. Qed.

(** C5, where the code fails the claim.  On a table on which the loop
    goes through, the rows it appends are, record by record and in the
    order [clean_genres] gives, the genres of the record next to its
    stripped title, as many as the records have genres in all.  Where a
    record has a genre, [transform] returns the table of these rows: a
    [title] and a [genre] column.  Where no record has a genre the rows
    are none, as the claim has it, but [transform] returns no table of no
    rows: the summary raises [KeyError]. *)
Theorem C5_links_are_concatenation parse_number df titles genres :
  loop_ready df = true →
  getitem df "title" = Ok titles → getitem df "genre" = Ok genres →
  let title_of := λ c, match c with
                       | CStr x => CStr (Str.strip x)
                       | CNum _ => NaN
                       end in
  let genres_of := λ c, match clean_genres c with
                        | Ok gs => gs
                        | Raise _ => []
                        end in
  let rows :=
    concat (zip_with (λ t c, (λ x, (title_of t, x)) <$> genres_of c)
              titles genres) in
  Forall (λ c, is_ok (clean_genres c) = true) genres
  ∧ length titles = length genres
  ∧ length rows = sum_list ((λ c, length (genres_of c)) <$> genres)
  ∧ (∃ c, cleaned_table parse_number df = Ok c ∧ genre_rows c = Ok rows)
  ∧ (existsb is_str genres = true →
     ∃ m, transform parse_number df
          = Ok (m, [("title", rows.*1); ("genre", CStr <$> rows.*2)]))
  ∧ (existsb is_str genres = false →
     rows = [] ∧ transform parse_number df = Raise (KeyError "genre")).
Proof.
  intros Hready Hti Hge title_of genres_of rows.
  assert (Hstr : forallb (λ c, is_str c || isna c) genres = true).
  { unfold loop_ready in Hready. rewrite Hge in Hready.
    by apply andb_true_iff in Hready as [_ ?]. }
  destruct (clean_genres_all _ Hstr) as [Hok Hgss].
  destruct (transform_run parse_number df titles genres _ Hready Hti Hge Hgss)
    as (c & Hc & _ & Hrows & Hlti & Hlge & H).
  assert (Hlen : length titles = length genres) by by rewrite Hlti, Hlge.
  assert (Erows : links_of (strip_cell <$> titles) (genres_of <$> genres)
                  = rows).
  { rewrite links_of_fmap. unfold rows. f_equal. apply zip_with_fmap_r. }
  fold genres_of in Hrows, H, Hgss. rewrite Erows in Hrows, H.
  split; [done|]. split; [done|]. split.
  { rewrite <- Erows, length_links_of by by rewrite !length_fmap.
    by rewrite <- list_fmap_compose. }
  split; [by exists c|].
  pose proof (links_of_nil (strip_cell <$> titles) genres _
                ltac:(by rewrite length_fmap) Hgss) as Hnil.
  rewrite Erows in Hnil. split.
  - intros Hex. rewrite H. clear H Hrows Erows. destruct rows as [|row rows'].
    + rewrite (proj1 Hnil eq_refl) in Hex. discriminate Hex.
    + by eexists.
  - intros Hex. apply Hnil in Hex. by rewrite Hex in H |- *.
Qed.

(** Two records with genres, and two without. *)
Lemma C5_links_are_concatenation_witness :
  (∃ m, transform parse_decimal two_dunes
        = Ok (m, [ ("title", [CStr "Dune"; CStr "Dune"; CStr "Dune"]);
                   ("genre", [CStr "Action"; CStr "Action"; CStr "Drama"]) ]))
  ∧ (∃ c, cleaned_table parse_decimal without_genres = Ok c
          ∧ genre_rows c = Ok [])
  ∧ transform parse_decimal without_genres = Raise (KeyError "genre").
Proof.
  split; [|split].
  - exact (proj1 (proj2 (proj2 (proj2 (proj2
             (C5_links_are_concatenation parse_decimal two_dunes
                [CStr " Dune "; CStr "Dune"]
                [CStr "Action, Akcija"; CStr "Action, Drama"]
                eq_refl eq_refl eq_refl))))) eq_refl).
  - exact (proj1 (proj2 (proj2 (proj2
             (C5_links_are_concatenation parse_decimal without_genres
                [CStr "Solaris"; CStr "Solaris "] [NaN; NaN]
                eq_refl eq_refl eq_refl))))).
  - exact (proj2 (proj2 (proj2 (proj2 (proj2 (proj2
             (C5_links_are_concatenation parse_decimal without_genres
                [CStr "Solaris"; CStr "Solaris "] [NaN; NaN]
                eq_refl eq_refl eq_refl))))) eq_refl)).
Defined.

(** C8 (as amended).  On a [ready] table [transform] returns; the movies
    table has no [genre] column; a column of the argument that is none of
    the nine the code reads and is not called [roi] is in the movies table
    as it came.  The [roi] column of the movies table holds numbers, one
    for each record, which for numbers [below_2_53] are [roi] of the
    coerced [box_office] and [budget]; it is the same column whatever the
    argument holds under [roi], so a [roi] column of the argument is
    replaced and not passed through. *)
Theorem C8_movies_columns parse_number df :
  ready df = true →
  ∃ m g (box_office budget rois : list float),
    transform parse_number df = Ok (m, g)
    ∧ getitem m "genre" = Raise (KeyError "genre")
    ∧ (∀ k, k ∉ required_columns → k ≠ "roi" → getitem m k = getitem df k)
    ∧ getitem m "roi" = Ok (CNum <$> rois) ∧ length rois = len df
    ∧ getitem m "box_office" = Ok (CNum <$> box_office)
    ∧ getitem m "budget" = Ok (CNum <$> budget)
    ∧ (forallb below_2_53 box_office = true →
       forallb below_2_53 budget = true →
       rois = zip_with roi box_office budget)
    ∧ (∀ col, length col = len df →
         ∃ m' g',
           transform parse_number (setitem df "roi" col) = Ok (m', g')
           ∧ getitem m' "roi" = Ok (CNum <$> rois)).
Proof.
  intros Hready.
  destruct (transform_returns parse_number df Hready) as (m & g & H).
  destruct (transform_roi _ _ _ _ (ready_inv _ Hready) H)
    as (bo & bu & Hbo & Hbu & Hroi & Hlbo & Hlbu).
  destruct (transform_columns _ _ _ _ H) as (Hg & _ & Hother).
  exists m, g, bo, bu, (zip_with roi bo bu).
  rewrite length_zip_with. repeat split; try done; [lia|].
  intros col Hcol.
  destruct (transform_returns parse_number (setitem df "roi" col)
              (ready_setitem_roi _ _ Hready Hcol)) as (m' & g' & H').
  exists m', g'. split; [done|].
  rewrite (transform_movies _ _ _ _ "roi" H'), <- Hroi,
    (transform_movies _ _ _ _ "roi" H).
  unfold movies_column. simpl. by rewrite !getitem_setitem.
Qed.

(** [with_roi] brings [roi = ["high"]] and a [rating]: the movies table
    has 150 under [roi], also when the argument says ["low"]. *)
Lemma C8_movies_columns_witness :
  ∃ m g,
    transform parse_decimal with_roi = Ok (m, g)
    ∧ getitem m "genre" = Raise (KeyError "genre")
    ∧ getitem m "rating" = Ok [CStr "R"]
    ∧ getitem m "roi" = Ok [CNum 150]
    ∧ ∃ m' g',
        transform parse_decimal (setitem with_roi "roi" [CStr "low"])
        = Ok (m', g')
        ∧ getitem m' "roi" = Ok [CNum 150].
Proof.
  destruct (C8_movies_columns parse_decimal with_roi eq_refl)
    as (m & g & bo & bu & rois & H & Hg & Hother & Hroi & _ & Hbo & Hbu
        & Hval & Hind).
  exists m, g. split; [exact H|]. split; [exact Hg|].
  destruct (Hind [CStr "low"] eq_refl) as (m' & g' & H' & Hroi').
  assert (Hrois : rois = [150%float]).
  { rewrite transform_with_roi in H. injection H as <- <-.
    destruct bo as [|b1 [|b2 bo]]; try discriminate Hbo.
    destruct bu as [|u1 [|u2 bu]]; try discriminate Hbu.
    injection Hbo as <-. injection Hbu as <-.
    exact (Hval eq_refl eq_refl). }
  rewrite Hrois in Hroi, Hroi'.
  split; [|split; [exact Hroi|by exists m', g']].
  rewrite Hother; [reflexivity| |discriminate].
  unfold required_columns, numeric_columns, text_columns. simpl.
  rewrite !elem_of_cons, elem_of_nil.
  intros Hin. repeat (destruct Hin as [Hin|Hin]; [discriminate Hin|]).
  exact Hin.
Defined.

(** C8, the claim as written fails: [roi] is not one of the nine columns,
    and a [roi] column of the argument is replaced by the computed one. *)
Lemma C8_counterexample :
  transform parse_decimal with_roi = Ok (with_roi_movies, with_roi_links)
  ∧ ("roi" ∉ required_columns)
  ∧ getitem with_roi "roi" = Ok [CStr "high"]
  ∧ getitem with_roi_movies "roi" = Ok [CNum 150]
  ∧ getitem with_roi_movies "rating" = getitem with_roi "rating".
Proof.
  split; [by vm_compute|]. split; [|by vm_compute].
  unfold required_columns, numeric_columns, text_columns. simpl.
  rewrite !elem_of_cons, elem_of_nil.
  intros H. repeat (destruct H as [H|H]; [discriminate H|]). done.
Qed.



End TransformClaims.

(** * Further properties *)

(** ** The genre normaliser *)

Section GenreLaws.
Import Str StrFacts.

Lemma split_concat sep s1 s2 :
  split sep (s1 +:+ String sep s2) = split sep s1 ++ split sep s2.
Proof.
  induction s1 as [|c s1 IH]; simpl.
  - by rewrite Ascii.eqb_refl.
  - destruct (Ascii.eqb c sep); [by rewrite IH|].
    rewrite IH. pose proof (split_nonempty sep s1) as Hne.
    by destruct (split sep s1).
Qed.

Lemma length_split sep s : length (split sep s) = S (count_char sep s).
Proof.
  induction s as [|c s IH]; simpl; [done|].
  destruct (Ascii.eqb c sep); simpl; [by rewrite IH|].
  pose proof (split_nonempty sep s) as Hne.
  destruct (split sep s); [done|]. simpl in *. lia.
Qed.

Lemma length_first_occurrences l : length (first_occurrences l) ≤ length l.
Proof.
  induction l as [|x l IH]; simpl; [done|].
  pose proof (length_filter (λ y, y ≠ x) (first_occurrences l)). lia.
Qed.

Lemma first_occurrences_app a b :
  first_occurrences (a ++ b)
  = first_occurrences a ++ filter (λ g, g ∉ a) (first_occurrences b).
Proof.
  induction a as [|x a IH]; simpl.
  - symmetry. apply filter_all. intros g _. apply not_elem_of_nil.
  - rewrite IH, filter_app, list_filter_filter. do 2 f_equal.
    apply list_filter_iff. intros g. rewrite not_elem_of_cons. tauto.
Qed.

Lemma filter_none (l l' : list string) :
  (∀ g, g ∈ l' → g ∈ l) → filter (λ g, g ∉ l) l' = [].
Proof.
  induction l' as [|x l' IH]; intros H; [done|].
  rewrite filter_cons_False by (intros Hx; apply Hx, H; by left).
  apply IH. intros g Hg. apply H. by right.
Qed.

(** X1.  [fix_genre] is idempotent on every string, not only on the
    values of the table; its result is trimmed, does not depend on the
    white space around its argument, and is never a key of the table that
    the table maps to another label. *)
Theorem X1_fix_genre_fixed_point g :
  fix_genre (fix_genre g) = fix_genre g
  ∧ strip (fix_genre g) = fix_genre g
  ∧ fix_genre (strip g) = fix_genre g
  ∧ (GENRE_CORRECTIONS !! fix_genre g = None
     ∨ GENRE_CORRECTIONS !! fix_genre g = Some (fix_genre g)).
Proof.
  destruct (fix_genre_settled g) as [Hs Hf].
  split; [done|]. split; [done|]. split.
  - by rewrite !fix_genre_lookup, strip_idem.
  - rewrite fix_genre_lookup, Hs in Hf.
    destruct (GENRE_CORRECTIONS !! fix_genre g) as [v|]; [|by left].
    simpl in Hf. right. by rewrite Hf.
Qed.

(** X2.  A genre string gives at least one label and at most one more
    than it has commas. *)
Theorem X2_clean_genres_length s :
  ∃ l, clean_genres (CStr s) = Ok l
       ∧ 1 ≤ length l ≤ S (count_char "," s).
Proof.
  eexists. split; [apply clean_genres_str|].
  pose proof (length_first_occurrences (fix_genre <$> split "," s)) as Hle.
  rewrite length_fmap, length_split in Hle. split; [|done].
  pose proof (split_nonempty "," s) as Hne.
  destruct (split "," s); [done|]. simpl. lia.
Qed.

(** X3.  Normalising two genre strings joined by a comma gives the labels
    of the first, then the labels of the second that the first does not
    have; so a string joined to itself normalises as the string alone. *)
Theorem X3_clean_genres_concat s1 s2 :
  ∃ l1 l2,
    clean_genres (CStr s1) = Ok l1
    ∧ clean_genres (CStr s2) = Ok l2
    ∧ clean_genres (CStr (s1 +:+ String "," s2))
      = Ok (l1 ++ filter (λ g, g ∉ l1) l2)
    ∧ clean_genres (CStr (s1 +:+ String "," s1)) = Ok l1.
Proof.
  eexists _, _. split; [apply clean_genres_str|].
  split; [apply clean_genres_str|].
  assert (H : ∀ t, clean_genres (CStr (s1 +:+ String "," t))
    = Ok (first_occurrences (fix_genre <$> split "," s1)
          ++ filter (λ g, g ∉ first_occurrences (fix_genre <$> split "," s1))
               (first_occurrences (fix_genre <$> split "," t)))).
  { intros t. rewrite clean_genres_str, split_concat, fmap_app.
    rewrite first_occurrences_app. do 2 f_equal.
    apply list_filter_iff. intros g. by rewrite first_occurrences_elem. }
  split; [apply H|]. rewrite H. f_equal.
  rewrite filter_none; [apply app_nil_r|done].
Qed.

End GenreLaws.

(** ** When [transform] raises *)

Section TransformErrors.

Lemma getitem_raise df k e : getitem df k = Raise e → e = KeyError k.
Proof.
  induction df as [|[k0 c0] df IH]; simpl; [by intros [= <-]|].
  by destruct (String.eqb k0 k).
Qed.

Lemma clean_genres_raise c e :
  clean_genres c = Raise e →
  e = AttributeError "split" ∧ is_str c = false ∧ isna c = false.
Proof.
  destruct c as [s|f]; [by rewrite clean_genres_str|].
  unfold clean_genres. simpl. destruct (is_nan f); [done|].
  by intros [= <-].
Qed.

Lemma iterrows_loop_raise rs rows e :
  iterrows_loop rs rows = Raise e → e = AttributeError "split".
Proof.
  revert rows. induction rs as [|[t c] rs IH]; intros rows; simpl; [done|].
  destruct (clean_genres c) as [gs|e'] eqn:E; simpl; [apply IH|].
  intros [= <-]. by apply clean_genres_raise in E as [-> _].
Qed.

Lemma iterrows_loop_bad rs rows :
  Exists (λ r, is_str r.2 || isna r.2 = false) rs →
  iterrows_loop rs rows = Raise (AttributeError "split").
Proof.
  intros H. revert rows.
  induction H as [[t c] rs Hc|[t c] rs _ IH]; intros rows; simpl.
  - simpl in Hc. apply orb_false_iff in Hc as [Hs Hn].
    destruct c as [s|f]; [done|]. unfold clean_genres. simpl in *.
    by rewrite Hn.
  - destruct (clean_genres c) as [gs|e] eqn:E; simpl; [apply IH|].
    by apply clean_genres_raise in E as [-> _].
Qed.

Lemma str_strip_raise col e :
  str_strip col = Raise e → e = AttributeError "str".
Proof. unfold str_strip. destruct (dtype_of col); [done|]. by intros [= <-]. Qed.

(** X4.  On a rectangular table [transform] returns exactly when the
    table is [ready]: the nine columns are there, the four text columns
    hold strings, and the genre column holds strings and missing values
    with at least one string. *)
Theorem X4_transform_returns_iff_ready parse_number df :
  rectangular df → is_ok (transform parse_number df) = ready df.
Proof.
  intros Hr. destruct (ready df) eqn:E.
  - by destruct (transform_returns parse_number df E) as (m & g & ->).
  - destruct (transform parse_number df) as [[m g]|e] eqn:H; [|done].
    apply transform_ready in H; [congruence|done].
Qed.

Lemma X4_transform_returns_iff_ready_witness :
  is_ok (transform parse_decimal catalogue) = ready catalogue.
Proof.
  apply (X4_transform_returns_iff_ready parse_decimal catalogue).
  apply ready_rectangular. by vm_compute.
Defined.

(** X5.  What [transform] raises is a [KeyError] naming one of the nine
    columns it reads, the [AttributeError] of [.str] on a column that is
    not of strings, or the [AttributeError] of [split] on a genre that is a
    number: never a [TypeError] from the arithmetic, whose operands have
    been coerced. *)
Theorem X5_transform_exceptions parse_number df e :
  transform parse_number df = Raise e →
  (∃ k, e = KeyError k ∧ k ∈ required_columns)
  ∨ e = AttributeError "str" ∨ e = AttributeError "split".
Proof.
  rewrite transform_eq.
  unfold required_columns, numeric_columns, text_columns.
  pose proof getitem_raise as Hk. pose proof str_strip_raise as Hs.
  repeat match goal with
    | |- context [getitem df ?k ≫= str_strip] =>
        let E := fresh "E" in
        destruct (getitem df k) as [?|?] eqn:E; simpl;
          [|intros [= <-]; left; eexists; split;
            [by eapply Hk|set_solver]];
        let E' := fresh "E" in
        match goal with
        | |- context [str_strip ?c] =>
            destruct (str_strip c) as [?|?] eqn:E'; simpl;
              [|intros [= <-]; right; left; by eapply Hs]
        end
    | |- context [getitem df ?k] =>
        let E := fresh "E" in
        destruct (getitem df k) as [?|?] eqn:E; simpl;
          [|intros [= <-]; left; eexists; split;
            [by eapply Hk|set_solver]]
    end.
  destruct (iterrows_loop _ _) as [rows|e'] eqn:Er; simpl.
  - destruct rows as [|row rows]; simpl; [|done].
    intros [= <-]. left. exists "genre". split; [done|set_solver].
  - intros [= <-]. right. right. by eapply iterrows_loop_raise.
Qed.

Lemma X5_transform_exceptions_witness :
  (∃ k, KeyError "budget" = KeyError k ∧ k ∈ required_columns)
  ∨ KeyError "budget" = AttributeError "str"
  ∨ KeyError "budget" = AttributeError "split".
Proof.
  apply (X5_transform_exceptions parse_decimal
           (filter (λ kc, kc.1 ≠ "budget") catalogue)).
  by vm_compute.
Defined.

(** X6.  When the nine columns are there and one of the four text
    columns is not a column of strings (every director missing, for one),
    [transform] raises the [AttributeError] of the [.str] accessor. *)
Theorem X6_text_column_without_strings parse_number df k col :
  forallb (λ k, is_ok (getitem df k)) required_columns = true →
  k ∈ text_columns → getitem df k = Ok col → dtype_of col = float64 →
  transform parse_number df = Raise (AttributeError "str").
Proof.
  unfold required_columns, numeric_columns, text_columns. simpl.
  repeat rewrite andb_true_iff.
  intros (Hbu & Hbo & Hdu & Hry & Hti & Hdi & Hla & Hco & Hge & _) Hk Hcol Hd.
  rewrite transform_eq.
  destruct (getitem df "box_office"); [simpl|done].
  destruct (getitem df "budget"); [simpl|done].
  destruct (getitem df "duration"); [simpl|done].
  destruct (getitem df "release_year"); [simpl|done].
  destruct (getitem df "title") as [ti|] eqn:Eti; [simpl|done].
  destruct (getitem df "director") as [di|] eqn:Edi; [|done].
  destruct (getitem df "language") as [la|] eqn:Ela; [|done].
  destruct (getitem df "country") as [co|] eqn:Eco; [|done].
  assert (Hcases : dtype_of ti = float64 ∨ dtype_of di = float64
                   ∨ dtype_of la = float64 ∨ dtype_of co = float64).
  { rewrite !elem_of_cons, elem_of_nil in Hk.
    destruct Hk as [->|[->|[->|[->|[]]]]];
      rewrite ?Eti, ?Edi, ?Ela, ?Eco in Hcol; simplify_eq; tauto. }
  unfold str_strip.
  destruct (dtype_of ti); [simpl|done].
  destruct (dtype_of di); [simpl|done].
  destruct (dtype_of la); [simpl|done].
  destruct (dtype_of co); [simpl|done].
  by destruct Hcases as [?|[?|[?|?]]].
Qed.

Lemma X6_text_column_without_strings_witness :
  transform parse_decimal (setitem catalogue "director" [NaN; NaN; NaN])
  = Raise (AttributeError "str").
Proof.
  apply (X6_text_column_without_strings parse_decimal
           (setitem catalogue "director" [NaN; NaN; NaN])
           "director" [NaN; NaN; NaN]).
  - by vm_compute.
  - unfold text_columns. set_solver.
  - by vm_compute.
  - by vm_compute.
Defined.

(** X7.  On a rectangular table with the nine columns and strings in the
    text columns, a genre that is a number other than NaN makes
    [transform] raise the [AttributeError] of [split]. *)
Theorem X7_numeric_genre parse_number df genres :
  rectangular df →
  forallb (λ k, is_ok (getitem df k)) required_columns = true →
  forallb (λ k, match getitem df k with
                | Ok col => is_object col
                | Raise _ => false
                end) text_columns = true →
  getitem df "genre" = Ok genres →
  existsb (λ c, negb (is_str c || isna c)) genres = true →
  transform parse_number df = Raise (AttributeError "split").
Proof.
  unfold required_columns, numeric_columns, text_columns, is_object. simpl.
  repeat rewrite andb_true_iff.
  intros Hr (Hbu & Hbo & Hdu & Hry & Hti & Hdi & Hla & Hco & _)
    (Hti' & Hdi' & Hla' & Hco' & _) Hge Hbad.
  rewrite transform_eq.
  destruct (getitem df "box_office"); [simpl|done].
  destruct (getitem df "budget"); [simpl|done].
  destruct (getitem df "duration"); [simpl|done].
  destruct (getitem df "release_year"); [simpl|done].
  destruct (getitem df "title") as [ti|] eqn:Eti; [simpl|done].
  destruct (getitem df "director") as [di|]; [simpl|done].
  destruct (getitem df "language") as [la|]; [simpl|done].
  destruct (getitem df "country") as [co|]; [simpl|done].
  rewrite Hge. unfold str_strip.
  destruct (dtype_of ti); [simpl|done].
  destruct (dtype_of di); [simpl|done].
  destruct (dtype_of la); [simpl|done].
  destruct (dtype_of co); [simpl|done].
  rewrite iterrows_loop_bad; [done|].
  apply existsb_exists in Hbad as (c & Hc%list_elem_of_In & Hbad).
  apply list_elem_of_lookup in Hc as [i Hi].
  destruct (lookup_lt_is_Some_2 (strip_cell <$> ti) i) as [t0 Ht0].
  { rewrite length_fmap, (rectangular_getitem _ _ _ Hr Eti),
      <- (rectangular_getitem _ _ _ Hr Hge). by eapply lookup_lt_Some. }
  apply Exists_exists. exists (t0, c). split.
  - apply list_elem_of_lookup. exists i.
    rewrite lookup_zip_with, Ht0. simpl. by rewrite Hi.
  - simpl. by apply negb_true_iff.
Qed.

Lemma X7_numeric_genre_witness :
  transform parse_decimal (setitem catalogue "genre" [CNum 1; NaN; CNum 3])
  = Raise (AttributeError "split").
Proof.
  apply (X7_numeric_genre parse_decimal
           (setitem catalogue "genre" [CNum 1; NaN; CNum 3])
           [CNum 1; NaN; CNum 3]).
  - apply ready_rectangular. by vm_compute.
  - by vm_compute.
  - by vm_compute.
  - by vm_compute.
  - by vm_compute.
Defined.

End TransformErrors.

(** ** What the tables of [transform] look like *)

Section TransformInvariants.

Lemma setitem_keys (df : DataFrame) k v :
  (setitem df k v).*1 = add_key k df.*1.
Proof.
  unfold add_key. induction df as [|[k0 c0] df IH]; simpl; [done|].
  destruct (String.eqb_spec k0 k) as [->|Hne]; csimpl.
  - rewrite decide_True by set_solver. done.
  - rewrite IH. destruct (decide (k ∈ df.*1)).
    + rewrite decide_True by set_solver. done.
    + rewrite decide_False by set_solver. done.
Qed.

Lemma add_key_in k names : k ∈ names → add_key k names = names.
Proof. intros H. unfold add_key. by rewrite decide_True. Qed.

Lemma getitem_keys (df : DataFrame) k col :
  getitem df k = Ok col → k ∈ df.*1.
Proof.
  intros H%getitem_elem. apply list_elem_of_fmap. by exists (k, col).
Qed.

Lemma filter_keys (df : DataFrame) (k : string) :
  (filter (λ kc, kc.1 ≠ k) df).*1 = filter (λ k', k' ≠ k) df.*1.
Proof.
  induction df as [|[k0 c0] df IH]; [done|]. csimpl.
  destruct (decide (k0 ≠ k)).
  - rewrite !filter_cons_True by done. csimpl. by rewrite IH.
  - rewrite !filter_cons_False by done. done.
Qed.

(** X8.  The movies table keeps the columns of its argument in their
    order, without [genre]; [roi] stays where the argument has a column of
    that name and is the last column otherwise. *)
Theorem X8_movies_column_order parse_number df :
  ready df = true →
  ∃ m g, transform parse_number df = Ok (m, g)
    ∧ m.*1 = filter (λ k, k ≠ "genre") (add_key "roi" df.*1).
Proof.
  intros Hready.
  destruct (transform_returns parse_number df Hready) as (m & g & H).
  exists m, g. split; [done|].
  apply transform_inv in H
    as (bo & bu & du & ry & ti & di & la & co & t & d & l & c & ge & rows
        & (Hbo & Hbu & Hdu & Hry) & (Hti & Hdi & Hla & Hco) & _ & _ & _ & _
        & -> & _).
  apply getitem_keys in Hbo, Hbu, Hdu, Hry, Hti, Hdi, Hla, Hco.
  unfold movies_table, stripped, coerced.
  rewrite filter_keys, !setitem_keys.
  rewrite (add_key_in "box_office" df.*1) by done.
  rewrite (add_key_in "budget" df.*1) by done.
  rewrite (add_key_in "box_office" df.*1) by done.
  rewrite (add_key_in "duration" df.*1) by done.
  rewrite (add_key_in "release_year" df.*1) by done.
  rewrite (add_key_in "title" df.*1) by done.
  rewrite (add_key_in "director" df.*1) by done.
  rewrite (add_key_in "language" df.*1) by done.
  by rewrite (add_key_in "country" df.*1) by done.
Qed.

Lemma X8_movies_column_order_witness :
  ∃ m g, transform parse_decimal catalogue = Ok (m, g)
    ∧ m.*1 = filter (λ k, k ≠ "genre") (add_key "roi" catalogue.*1).
Proof.
  apply (X8_movies_column_order parse_decimal catalogue). by vm_compute.
Defined.

(** X9.  In the movies table the four numeric columns and [roi] hold
    numbers and missing values only, one for each record: no string is
    left in them. *)
Theorem X9_numeric_columns_hold_numbers parse_number df :
  ready df = true →
  ∃ m g, transform parse_number df = Ok (m, g)
    ∧ ∀ k, k ∈ numeric_columns ++ ["roi"] →
        ∃ values : list float,
          getitem m k = Ok (CNum <$> values) ∧ length values = len df.
Proof.
  intros Hready.
  destruct (transform_returns parse_number df Hready) as (m & g & H).
  pose proof (ready_inv _ Hready) as Hr.
  exists m, g. split; [done|]. intros k Hk.
  rewrite (transform_movies _ _ _ _ k H).
  apply transform_inv in H
    as (bo & bu & du & ry & _ & _ & _ & _ & _ & _ & _ & _ & _ & _
        & (Hbo & Hbu & Hdu & Hry) & _).
  pose proof (rectangular_getitem _ _ _ Hr Hbo).
  pose proof (rectangular_getitem _ _ _ Hr Hbu).
  pose proof (rectangular_getitem _ _ _ Hr Hdu).
  pose proof (rectangular_getitem _ _ _ Hr Hry).
  unfold numeric_columns in Hk. simpl in Hk.
  rewrite !elem_of_cons, elem_of_nil in Hk. unfold movies_column.
  destruct Hk as [->|[->|[->|[->|[->|[]]]]]]; simpl;
    rewrite ?Hbo, ?Hbu, ?Hdu, ?Hry; simpl;
    rewrite ?to_numeric_values; unfold roi_column;
    eexists; (split; [reflexivity|]);
    rewrite ?length_zip_with, ?length_numeric_values, ?length_replace; lia.
Qed.

Lemma X9_numeric_columns_hold_numbers_witness :
  ∃ m g, transform parse_decimal catalogue = Ok (m, g)
    ∧ ∀ k, k ∈ numeric_columns ++ ["roi"] →
        ∃ values : list float,
          getitem m k = Ok (CNum <$> values)
          ∧ length values = len catalogue.
Proof.
  apply (X9_numeric_columns_hold_numbers parse_decimal catalogue).
  by vm_compute.
Defined.

(** X10.  In the movies table each of the four text columns is the
    column of the argument, cell by cell: a string stays a string and is
    trimmed (a blank string becomes the empty string, not a missing
    value), and a value that is not a string is missing. *)
Theorem X10_text_columns_are_stripped parse_number df :
  ready df = true →
  ∃ m g, transform parse_number df = Ok (m, g)
    ∧ ∀ k col, k ∈ text_columns → getitem df k = Ok col →
        ∃ col', getitem m k = Ok col'
          ∧ Forall2 (λ c c',
               match c with
               | CStr x => ∃ y, c' = CStr y ∧ y = Str.strip x
                                ∧ Str.strip y = y
               | CNum _ => c' = NaN
               end) col col'.
Proof.
  intros Hready.
  destruct (transform_returns parse_number df Hready) as (m & g & H).
  exists m, g. split; [done|]. intros k col Hk Hcol.
  rewrite (transform_movies _ _ _ _ k H).
  apply transform_inv in H
    as (_ & _ & _ & _ & ti & di & la & co & t & d & l & c & _ & _
        & _ & (Hti & Hdi & Hla & Hco) & (Ht & Hd & Hl & Hc) & _).
  unfold text_columns in Hk. rewrite !elem_of_cons, elem_of_nil in Hk.
  unfold movies_column.
  destruct Hk as [->|[->|[->|[->|[]]]]]; simpl; rewrite Hcol; simpl;
    rewrite ?Hti, ?Hdi, ?Hla, ?Hco in Hcol; injection Hcol as <-.
  all: match goal with
       | Hs : str_strip ?c0 = Ok _ |- context [str_strip ?c0] =>
           rewrite Hs; apply str_strip_ok in Hs as (_ & _ & ->)
       end.
  all: eexists; split; [reflexivity|].
  all: apply Forall2_fmap_r, Forall_Forall2_diag, Forall_forall.
  all: intros [x|f] _; simpl; [|done].
  all: eexists; split; [done|]; split; [done|apply StrFacts.strip_idem].
Qed.

Lemma X10_text_columns_are_stripped_witness :
  ∃ m g, transform parse_decimal catalogue = Ok (m, g)
    ∧ ∀ k col, k ∈ text_columns → getitem catalogue k = Ok col →
        ∃ col', getitem m k = Ok col'
          ∧ Forall2 (λ c c',
               match c with
               | CStr x => ∃ y, c' = CStr y ∧ y = Str.strip x
                                ∧ Str.strip y = y
               | CNum _ => c' = NaN
               end) col col'.
Proof.
  apply (X10_text_columns_are_stripped parse_decimal catalogue).
  by vm_compute.
Defined.

Lemma setitem_same df k v : getitem df k = Ok v → setitem df k v = df.
Proof.
  induction df as [|[k0 c0] df IH]; simpl; [done|].
  destruct (String.eqb k0 k); [by intros [= ->]|].
  intros H. by rewrite IH.
Qed.

Lemma replace_numbers x v (fs : list float) :
  replace x v (CNum <$> fs) = CNum <$> fs.
Proof. unfold replace. by rewrite <- list_fmap_compose. Qed.

Lemma to_numeric_numbers parse_number (fs : list float) :
  to_numeric parse_number (CNum <$> fs) = CNum <$> fs.
Proof. unfold to_numeric. by rewrite <- list_fmap_compose. Qed.

Lemma numeric_values_numbers parse_number (fs : list float) :
  numeric_values parse_number (CNum <$> fs) = fs.
Proof.
  unfold numeric_values. rewrite <- list_fmap_compose. apply list_fmap_id.
Qed.

Lemma strip_cell_idem c : strip_cell (strip_cell c) = strip_cell c.
Proof. destruct c; simpl; [|done]. by rewrite StrFacts.strip_idem. Qed.

Lemma existsb_strip_cell (col : Series) :
  existsb is_str (strip_cell <$> col) = existsb is_str col.
Proof.
  induction col as [|[x|f] col IH]; [done|..]; csimpl; by rewrite ?IH.
Qed.

Lemma str_strip_stripped col :
  dtype_of col = object →
  str_strip (strip_cell <$> col) = Ok (strip_cell <$> col)
  ∧ dtype_of (strip_cell <$> col) = object.
Proof.
  intros H.
  assert (Hd : dtype_of (strip_cell <$> col) = object).
  { unfold dtype_of in *. destruct col as [|c col]; [done|].
    rewrite fmap_cons, <- fmap_cons, existsb_strip_cell. done. }
  split; [|done]. unfold str_strip. rewrite Hd.
  rewrite <- list_fmap_compose. f_equal. apply list_fmap_ext.
  intros _ c _. apply strip_cell_idem.
Qed.

(** A table that the three blocks leave as it is. *)
Lemma cleaned_table_fixed parse_number df fbo fbu fdu fry ti di la co :
  getitem df "box_office" = Ok (CNum <$> fbo) →
  getitem df "budget" = Ok (CNum <$> fbu) →
  getitem df "duration" = Ok (CNum <$> fdu) →
  getitem df "release_year" = Ok (CNum <$> fry) →
  getitem df "title" = Ok (strip_cell <$> ti) → dtype_of ti = object →
  getitem df "director" = Ok (strip_cell <$> di) → dtype_of di = object →
  getitem df "language" = Ok (strip_cell <$> la) → dtype_of la = object →
  getitem df "country" = Ok (strip_cell <$> co) → dtype_of co = object →
  getitem df "roi" = Ok (CNum <$> zip_with roi fbo fbu) →
  cleaned_table parse_number df = Ok df.
Proof.
  intros Hbo Hbu Hdu Hry Hti Oti Hdi Odi Hla Ola Hco Oco Hroi.
  rewrite cleaned_table_eq, Hbo, Hbu, Hdu, Hry, Hti, Hdi, Hla, Hco. simpl.
  rewrite (proj1 (str_strip_stripped ti Oti)). simpl.
  rewrite (proj1 (str_strip_stripped di Odi)). simpl.
  rewrite (proj1 (str_strip_stripped la Ola)). simpl.
  rewrite (proj1 (str_strip_stripped co Oco)). simpl.
  unfold stripped, coerced, roi_column.
  rewrite !replace_numbers, !to_numeric_numbers, !numeric_values_numbers.
  rewrite (setitem_same df "box_office") by done.
  rewrite (setitem_same df "budget") by done.
  rewrite (setitem_same df "box_office") by done.
  rewrite (setitem_same df "duration") by done.
  rewrite (setitem_same df "release_year") by done.
  rewrite (setitem_same df "title") by done.
  rewrite (setitem_same df "director") by done.
  rewrite (setitem_same df "language") by done.
  rewrite (setitem_same df "country") by done.
  by rewrite (setitem_same df "roi") by done.
Qed.

(** X11.  Cleaning is idempotent: the table that lines 66-85 of
    [transform] produce (numbers coerced, text stripped, [roi] added) is
    left as it is when the same lines run on it again. *)
Theorem X11_cleaning_is_idempotent parse_number df df' :
  cleaned_table parse_number df = Ok df' →
  cleaned_table parse_number df' = Ok df'.
Proof.
  rewrite cleaned_table_eq.
  destruct (getitem df "box_office") as [bo|]; simpl; [|done].
  destruct (getitem df "budget") as [bu|]; simpl; [|done].
  destruct (getitem df "duration") as [du|]; simpl; [|done].
  destruct (getitem df "release_year") as [ry|]; simpl; [|done].
  destruct (getitem df "title") as [ti|]; simpl; [|done].
  destruct (str_strip ti) as [t|] eqn:Et; simpl; [|done].
  destruct (getitem df "director") as [di|]; simpl; [|done].
  destruct (str_strip di) as [d|] eqn:Ed; simpl; [|done].
  destruct (getitem df "language") as [la|]; simpl; [|done].
  destruct (str_strip la) as [l|] eqn:El; simpl; [|done].
  destruct (getitem df "country") as [co|]; simpl; [|done].
  destruct (str_strip co) as [c|] eqn:Ec; simpl; [|done].
  intros [= <-].
  apply str_strip_ok in Et as (Oti & _ & ->), Ed as (Odi & _ & ->),
      El as (Ola & _ & ->), Ec as (Oco & _ & ->).
  apply (cleaned_table_fixed parse_number _
           (numeric_values parse_number (replace "unknown" NaN bo))
           (numeric_values parse_number bu)
           (numeric_values parse_number du)
           (numeric_values parse_number ry) ti di la co);
    try done; unfold stripped, coerced, roi_column;
    repeat (rewrite getitem_setitem; simpl);
    by rewrite ?to_numeric_values.
Qed.

Lemma X11_cleaning_is_idempotent_witness :
  ∃ df', cleaned_table parse_decimal catalogue = Ok df'
         ∧ cleaned_table parse_decimal df' = Ok df'.
Proof.
  eexists. split; [by vm_compute|].
  apply (X11_cleaning_is_idempotent parse_decimal catalogue).
  by vm_compute.
Defined.

End TransformInvariants.

(** ** The link table *)

Section LinkTable.

Lemma links_of_elem titles gss t x :
  (t, x) ∈ links_of titles gss →
  ∃ i gs, titles !! i = Some t ∧ gss !! i = Some gs ∧ x ∈ gs.
Proof.
  revert gss. induction titles as [|t0 ts IH]; intros [|gs0 gss];
    try by intros ?%elem_of_nil.
  rewrite links_of_cons, elem_of_app. intros [H|H].
  - apply list_elem_of_fmap in H as (y & [= -> ->] & Hy).
    by exists 0, gs0.
  - apply IH in H as (i & gs & Hi & Hgs & Hx). by exists (S i), gs.
Qed.

(** X12.  The link table of a run that returns has the two columns
    [title] and [genre], of one length and not empty.  Its genres are
    strings, never missing values: each is trimmed, holds no comma, and is
    left alone by [fix_genre], so no misspelling that the table corrects
    reaches the output. *)
Theorem X12_link_table_schema parse_number df :
  ready df = true →
  ∃ m g titles labels,
    transform parse_number df = Ok (m, g)
    ∧ g = [("title", titles); ("genre", CStr <$> labels)]
    ∧ length titles = length labels
    ∧ labels ≠ []
    ∧ ∀ x, x ∈ labels →
        Str.strip x = x ∧ Str.contains "," x = false ∧ fix_genre x = x.
Proof.
  intros Hready.
  destruct (transform_returns parse_number df Hready) as (m & g & H).
  destruct (transform_links _ _ _ _ (ready_inv _ Hready) H)
    as (ti & ge & gss & _ & _ & _ & Hall & Hne & -> & _).
  set (rows := links_of (strip_cell <$> ti) gss) in *.
  eexists m, _, rows.*1, rows.*2. split; [exact H|].
  split; [by destruct rows|]. split; [by rewrite !length_fmap|].
  split; [by destruct rows|].
  intros x (row & -> & Hrow)%list_elem_of_fmap. destruct row as [t x].
  apply links_of_elem in Hrow as (i & gs & _ & Hgs & Hx).
  destruct (Forall2_lookup_r _ _ _ i gs Hall Hgs) as (c & _ & Hc).
  destruct c as [s|f].
  - destruct (clean_genres_settled s gs x Hc Hx) as [[Hs Hf] Hcomma].
    done.
  - unfold clean_genres in Hc. simpl in Hc.
    destruct (is_nan f); [|done]. injection Hc as <-.
    by apply elem_of_nil in Hx.
Qed.

Lemma X12_link_table_schema_witness :
  ∃ m g titles labels,
    transform parse_decimal catalogue = Ok (m, g)
    ∧ g = [("title", titles); ("genre", CStr <$> labels)]
    ∧ length titles = length labels
    ∧ labels ≠ []
    ∧ ∀ x, x ∈ labels →
        Str.strip x = x ∧ Str.contains "," x = false ∧ fix_genre x = x.
Proof.
  apply (X12_link_table_schema parse_decimal catalogue). by vm_compute.
Defined.

(** X13.  The link table depends on the [title] and [genre] columns
    alone: two tables that agree on these two columns give the same link
    table when [transform] returns on both, whatever their other columns
    hold and whatever the reader of numbers. *)
Theorem X13_links_depend_on_title_and_genre parse1 parse2 df1 df2 :
  getitem df1 "title" = getitem df2 "title" →
  getitem df1 "genre" = getitem df2 "genre" →
  is_ok (transform parse1 df1) = true →
  is_ok (transform parse2 df2) = true →
  snd <$> transform parse1 df1 = snd <$> transform parse2 df2.
Proof.
  intros Ht Hg H1 H2.
  destruct (transform parse1 df1) as [[m1 g1]|] eqn:E1; [|done].
  destruct (transform parse2 df2) as [[m2 g2]|] eqn:E2; [|done].
  apply transform_inv in E1
    as (_ & _ & _ & _ & ti1 & _ & _ & _ & t1 & _ & _ & _ & ge1 & rows1
        & _ & (Hti1 & _) & (Hs1 & _) & Hge1 & Hr1 & _ & _ & ->).
  apply transform_inv in E2
    as (_ & _ & _ & _ & ti2 & _ & _ & _ & t2 & _ & _ & _ & ge2 & rows2
        & _ & (Hti2 & _) & (Hs2 & _) & Hge2 & Hr2 & _ & _ & ->).
  rewrite Hti1, Hti2 in Ht. rewrite Hge1, Hge2 in Hg.
  injection Ht as ->. injection Hg as ->.
  rewrite Hs1 in Hs2. injection Hs2 as ->.
  rewrite Hr1 in Hr2. by injection Hr2 as ->.
Qed.

Lemma X13_links_depend_on_title_and_genre_witness :
  snd <$> transform parse_decimal catalogue
  = snd <$> transform (λ _, None)
              (setitem
                 (setitem catalogue "budget" [CStr "a"; CStr "b"; CStr "c"])
                 "country" [CStr "x"; NaN; NaN]).
Proof.
  apply (X13_links_depend_on_title_and_genre parse_decimal (λ _, None)
           catalogue
           (setitem
              (setitem catalogue "budget" [CStr "a"; CStr "b"; CStr "c"])
              "country" [CStr "x"; NaN; NaN])); by vm_compute.
Defined.

End LinkTable.

(** ** The ROI at the edges *)

Section RoiEdges.
Open Scope float_scope.

(** X14.  A budget of zero next to a box office that is a number other
    than zero always gives an infinite [roi]: the division by zero is not
    an error and is not a missing value. *)
Theorem X14_zero_budget_gives_infinity box_office budget :
  is_zero budget = true →
  is_nan box_office = false → is_zero box_office = false →
  is_infinity (roi box_office budget) = true
  ∧ is_nan (roi box_office budget) = false.
Proof.
  intros Hb Hn Hz.
  assert (Hinf : ∃ s, Prim2SF (roi box_office budget) = S754_infinity s).
  { apply is_zero_spec in Hb as [sb Hb].
    destruct Prim2SF_100 as (m & e & H100).
    assert (Hq : ∃ s, Prim2SF ((box_office - budget) / budget * 100)
                      = S754_infinity s).
    { rewrite mul_spec, div_spec, sub_spec, Hb, H100.
      destruct (Prim2SF box_office) as [s|s| |s mx ex] eqn:E.
      - assert (is_zero box_office = true) by (apply is_zero_spec; eauto).
        congruence.
      - simpl. eauto.
      - assert (is_nan box_office = true) by by apply is_nan_spec.
        congruence.
      - simpl. eauto. }
    destruct Hq as [s Hq]. exists s. by apply round2_infinity. }
  split; [by apply is_infinity_spec|].
  destruct Hinf as [s Hinf].
  destruct (is_nan (roi box_office budget)) eqn:E; [|done].
  apply is_nan_spec in E. congruence.
Qed.

Lemma X14_zero_budget_gives_infinity_witness :
  is_infinity (roi (-4) 0) = true ∧ is_nan (roi (-4) 0) = false.
Proof.
  apply (X14_zero_budget_gives_infinity (-4) 0); reflexivity.
Defined.

(** X15.  A box office equal to a budget that is a number other than
    zero gives a [roi] of zero. *)
Theorem X15_break_even_gives_zero budget :
  is_nan budget = false → is_infinity budget = false →
  is_zero budget = false →
  is_zero (roi budget budget) = true.
Proof.
  intros Hn Hi Hz. destruct (finite_spec _ Hn Hi Hz) as (s & m & e & Hb).
  destruct Prim2SF_100 as (m1 & e1 & H100).
  apply is_zero_spec. unfold roi.
  assert (Hq : Prim2SF ((budget - budget) / budget * 100)
               = S754_zero (xorb (xorb false s) false)).
  { rewrite mul_spec, div_spec, sub_spec, Hb, H100.
    unfold SF64sub. by rewrite SFsub_diag. }
  by apply round2_zero in Hq.
Qed.

Lemma X15_break_even_gives_zero_witness :
  is_zero (roi 165000000 165000000) = true.
Proof.
  apply (X15_break_even_gives_zero 165000000); reflexivity.
Defined.

End RoiEdges.

(** ** Loading *)

Section Loading.

Lemma format_field_unset (environ : gmap string string) k key :
  format_field (getenv (delete k environ) key)
  = format_field (getenv (<[k := "None"]> environ) key).
Proof.
  unfold getenv. destruct (decide (k = key)) as [->|Hne].
  - by rewrite lookup_delete_eq, lookup_insert_eq.
  - by rewrite lookup_delete_ne, lookup_insert_ne.
Qed.

Lemma append_assoc (a b c : string) : (a +:+ b) +:+ c = a +:+ (b +:+ c).
Proof.
  induction a as [|x a IH]; [done|].
  change (String x ((a +:+ b) +:+ c) = String x (a +:+ (b +:+ c))).
  by rewrite IH.
Qed.

(** X16.  The URL of [get_engine] does not tell the configuration: a
    variable that is not set gives the URL of the variable set to the
    text None, and, nothing being escaped, a colon in the user name or the
    password moves the boundary between the two. *)
Theorem X16_database_url_is_ambiguous (environ : gmap string string) k u x p :
  database_url (delete k environ) = database_url (<[k := "None"]> environ)
  ∧ database_url (<["DB_USER" := u +:+ ":" +:+ x]>
                    (<["DB_PASSWORD" := p]> environ))
    = database_url (<["DB_USER" := u]>
                      (<["DB_PASSWORD" := x +:+ ":" +:+ p]> environ)).
Proof.
  split.
  - unfold database_url. by rewrite !format_field_unset.
  - unfold database_url, getenv.
    rewrite !lookup_insert_eq.
    rewrite !(lookup_insert_ne _ "DB_USER") by done.
    rewrite !lookup_insert_eq.
    rewrite !(lookup_insert_ne _ "DB_PASSWORD") by done.
    simpl. by rewrite !append_assoc.
Qed.

Lemma create_table_lookup name columns (db : Database) name' :
  create_table_if_not_exists name columns db !! name'
  = match db !! name' with
    | Some t => Some t
    | None => if decide (name = name')
              then Some ((λ c, (c, [])) <$> columns) else None
    end.
Proof.
  unfold create_table_if_not_exists.
  destruct (decide (name = name')) as [->|Hne].
  - destruct (db !! name') eqn:E; [by rewrite E|].
    by rewrite lookup_insert_eq.
  - destruct (db !! name) eqn:E; [by destruct (db !! name')|].
    rewrite lookup_insert_ne by done. by destruct (db !! name').
Qed.

Lemma create_table_existing name columns (db : Database) :
  is_Some (db !! name) → create_table_if_not_exists name columns db = db.
Proof. intros [t H]. unfold create_table_if_not_exists. by rewrite H. Qed.

(** X17.  [create_tables] changes no table that exists, whatever its
    columns, makes the two tables where they are missing, and is
    idempotent. *)
Theorem X17_create_tables (db : Database) :
  (∀ name, is_Some (db !! name) → create_tables db !! name = db !! name)
  ∧ is_Some (create_tables db !! "movies")
  ∧ is_Some (create_tables db !! "movie_genres")
  ∧ (∀ name, name ≠ "movies" → name ≠ "movie_genres" →
             create_tables db !! name = db !! name)
  ∧ create_tables (create_tables db) = create_tables db.
Proof.
  assert (Hm : is_Some (create_tables db !! "movies")).
  { unfold create_tables. rewrite !create_table_lookup.
    destruct (db !! "movies"); simpl; eauto. }
  assert (Hg : is_Some (create_tables db !! "movie_genres")).
  { unfold create_tables. rewrite !create_table_lookup.
    destruct (db !! "movie_genres"); simpl; eauto. }
  split; [|split; [done|split; [done|split]]].
  - intros name [t H]. unfold create_tables.
    by rewrite !create_table_lookup, H.
  - intros name H1 H2. unfold create_tables. rewrite !create_table_lookup.
    destruct (db !! name); [done|]. by rewrite !decide_False.
  - unfold create_tables at 1.
    rewrite (create_table_existing "movies") by done.
    by rewrite (create_table_existing "movie_genres").
Qed.

Lemma X17_create_tables_witness :
  create_tables {[ "movies" := [("title", [CStr "Ran"])] ]} !! "movies"
  = ({[ "movies" := [("title", [CStr "Ran"])] ]} : Database) !! "movies".
Proof.
  apply (proj1 (X17_create_tables {[ "movies" := [("title", [CStr "Ran"])] ]})).
  by rewrite lookup_singleton_eq.
Defined.

Lemma create_tables_other (db : Database) name :
  name ≠ "movies" → name ≠ "movie_genres" →
  create_tables db !! name = db !! name.
Proof.
  intros H1 H2. unfold create_tables. rewrite !create_table_lookup.
  destruct (db !! name); [done|]. by rewrite !decide_False.
Qed.

Lemma create_tables_loaded (db : Database) m g :
  create_tables (<["movie_genres" := g]> (<["movies" := m]> db))
  = <["movie_genres" := g]> (<["movies" := m]> db).
Proof.
  unfold create_tables.
  rewrite (create_table_existing "movies");
    [|rewrite lookup_insert_ne by done; rewrite lookup_insert_eq; eauto].
  apply create_table_existing. rewrite lookup_insert_eq. eauto.
Qed.

Lemma load_tables df_movies df_movie_genres (db : Database) :
  (load_to_postgres df_movies df_movie_genres db).1 !! "movies"
    = Some df_movies
  ∧ (load_to_postgres df_movies df_movie_genres db).1 !! "movie_genres"
    = Some df_movie_genres
  ∧ (load_to_postgres df_movies df_movie_genres db).2
    = (Some (len df_movies), Some (len df_movie_genres))
  ∧ ∀ name, name ≠ "movies" → name ≠ "movie_genres" →
      (load_to_postgres df_movies df_movie_genres db).1 !! name = db !! name.
Proof.
  unfold load_to_postgres, to_sql, count_rows. simpl.
  rewrite lookup_insert_eq, lookup_insert_ne, lookup_insert_eq by done.
  repeat split. intros name H1 H2.
  rewrite !lookup_insert_ne by done. by apply create_tables_other.
Qed.

(** X18.  [load_to_postgres] is a full refresh: whatever the database
    held, the two tables are the two frames afterwards, the counts it
    reads are the lengths of the frames, no other table changes, and
    loading the same frames again changes nothing. *)
Theorem X18_load_is_full_refresh df_movies df_movie_genres (db : Database) :
  let loaded := load_to_postgres df_movies df_movie_genres db in
  loaded.1 !! "movies" = Some df_movies
  ∧ loaded.1 !! "movie_genres" = Some df_movie_genres
  ∧ loaded.2 = (Some (len df_movies), Some (len df_movie_genres))
  ∧ (∀ name, name ≠ "movies" → name ≠ "movie_genres" →
             loaded.1 !! name = db !! name)
  ∧ load_to_postgres df_movies df_movie_genres loaded.1 = loaded.
Proof.
  destruct (load_tables df_movies df_movie_genres db) as (Hm & Hg & Hc & Ho).
  simpl. split; [done|]. split; [done|]. split; [done|]. split; [done|].
  apply injective_projections;
    [|by rewrite (proj1 (proj2 (proj2 (load_tables _ _ _))))].
  unfold load_to_postgres, to_sql. simpl.
  rewrite create_tables_loaded. apply map_eq. intros name.
  destruct (decide (name = "movie_genres")) as [->|H2];
    [by rewrite !lookup_insert_eq|].
  destruct (decide (name = "movies")) as [->|H1]; by simplify_map_eq.
Qed.

(** X19.  The columns that [create_tables] declares do not survive a
    run: [to_sql] with [if_exists='replace'] makes the [movies] table again
    from the frame, so after the pipeline it has the columns of the movies
    frame, and no [id] column when the source has none, although the
    table that [create_tables] makes has one. *)
Theorem X19_declared_schema_is_replaced parse_number df (db : Database) :
  ready df = true → getitem df "id" = Raise (KeyError "id") →
  ∃ db' counts t,
    pipeline parse_number df db = Ok (db', counts)
    ∧ db' !! "movies" = Some t
    ∧ getitem t "id" = Raise (KeyError "id")
    ∧ t.*1 = filter (λ k, k ≠ "genre") (add_key "roi" df.*1)
    ∧ ∃ t0, create_tables ∅ !! "movies" = Some t0 ∧ getitem t0 "id" = Ok [].
Proof.
  intros Hready Hid.
  destruct (transform_returns parse_number df Hready) as (m & g & H).
  destruct (load_tables m g db) as (Hm & _).
  eexists _, _, m. unfold pipeline. rewrite H. simpl.
  split; [reflexivity|]. split; [done|]. split; [|split].
  - destruct (transform_columns _ _ _ _ H) as (_ & _ & Hother).
    rewrite Hother; [done|..|done].
    unfold required_columns, numeric_columns, text_columns. simpl.
    rewrite !elem_of_cons, elem_of_nil.
    intros Hin. repeat (destruct Hin as [Hin|Hin]; [discriminate Hin|]).
    done.
  - apply transform_inv in H
      as (bo & bu & du & ry & ti & di & la & co & t & d & l & c & ge & rows
          & (Hbo & Hbu & Hdu & Hry) & (Hti & Hdi & Hla & Hco) & _ & _ & _ & _
          & -> & _).
    apply getitem_keys in Hbo, Hbu, Hdu, Hry, Hti, Hdi, Hla, Hco.
    unfold movies_table, stripped, coerced.
    rewrite filter_keys, !setitem_keys.
    rewrite (add_key_in "box_office" df.*1) by done.
    rewrite (add_key_in "budget" df.*1) by done.
    rewrite (add_key_in "box_office" df.*1) by done.
    rewrite (add_key_in "duration" df.*1) by done.
    rewrite (add_key_in "release_year" df.*1) by done.
    rewrite (add_key_in "title" df.*1) by done.
    rewrite (add_key_in "director" df.*1) by done.
    rewrite (add_key_in "language" df.*1) by done.
    by rewrite (add_key_in "country" df.*1) by done.
  - eexists. split; by vm_compute.
Qed.

Lemma X19_declared_schema_is_replaced_witness :
  ∃ db' counts t,
    pipeline parse_decimal catalogue (create_tables ∅) = Ok (db', counts)
    ∧ db' !! "movies" = Some t
    ∧ getitem t "id" = Raise (KeyError "id")
    ∧ t.*1 = filter (λ k, k ≠ "genre") (add_key "roi" catalogue.*1)
    ∧ ∃ t0, create_tables ∅ !! "movies" = Some t0 ∧ getitem t0 "id" = Ok [].
Proof.
  apply (X19_declared_schema_is_replaced parse_decimal catalogue
           (create_tables ∅)); by vm_compute.
Defined.

(** X20.  When the pipeline goes through, the count it reads for the
    [movies] table is the number of records of the source, the count for
    [movie_genres] is at least one, and no other table of the database has
    changed.  When [transform] raises, the pipeline raises the same
    exception and returns no database. *)
Theorem X20_pipeline_counts parse_number df (db : Database) :
  (ready df = true →
   ∃ db' n,
     pipeline parse_number df db = Ok (db', (Some (len df), Some n))
     ∧ 1 ≤ n
     ∧ ∀ name, name ≠ "movies" → name ≠ "movie_genres" →
               db' !! name = db !! name)
  ∧ (∀ e, transform parse_number df = Raise e →
          pipeline parse_number df db = Raise e).
Proof.
  split.
  - intros Hready.
    destruct (transform_returns parse_number df Hready) as (m & g & H).
    pose proof (ready_inv _ Hready) as Hr.
    destruct (load_tables m g db) as (_ & _ & Hc & Ho).
    destruct (transform_links _ _ _ _ Hr H)
      as (ti & ge & gss & _ & _ & _ & _ & Hne & Hg & _).
    exists (load_to_postgres m g db).1, (len g).
    unfold pipeline. rewrite H. simpl. split; [|split; [|done]].
    + f_equal. apply injective_projections; [done|].
      rewrite Hc. simpl. by rewrite (transform_len _ _ _ _ Hr H).
    + rewrite Hg, len_DataFrame_of_rows.
      destruct (links_of (strip_cell <$> ti) gss); [done|]. simpl. lia.
  - intros e H. unfold pipeline. by rewrite H.
Qed.

Lemma X20_pipeline_counts_witness :
  ∃ db' n,
    pipeline parse_decimal catalogue ∅ = Ok (db', (Some (len catalogue), Some n))
    ∧ 1 ≤ n
    ∧ ∀ name, name ≠ "movies" → name ≠ "movie_genres" →
              db' !! name = (∅ : Database) !! name.
Proof.
  apply (proj1 (X20_pipeline_counts parse_decimal catalogue ∅)).
  by vm_compute.
Defined.

End Loading.
